(** * Tenant resolution, request gating and scope enforcement
      of the project-tracking backend

    A shallow embedding of [backend/apps/organizations], [backend/apps/projects]
    and [backend/apps/tasks], with the properties of the specification stated
    over it.

    Conventions.
    - Python functions that may raise return a [Result]; [try]/[except] blocks
      are matches on it, in the order of the handlers.
    - [request.META] and [request.GET] are finite maps from names to strings.
    - Model instances are records; a foreign key holds the related instance,
      as attribute access on a Django instance gives it.
    - The relational store is a record of tables; its write operations
      ([Model.save], [Manager.create]) are an interface, since they can fail
      for reasons outside the repository (constraints, validators, the
      database itself). *)

From Stdlib Require Import ZArith List String Ascii Bool Lia.
From Stdlib Require Import DecimalString DecimalZ DecimalPos.
From Stdlib Require Import Floats.SpecFloat.
From stdpp Require Import base option list strings gmap.

Local Open Scope string_scope.
Local Open Scope Z_scope.

(** ** Python values and exceptions *)

(** The model classes of the repository. *)
Inductive ModelClass := OrganizationModel | ProjectModel | TaskModel | TaskCommentModel.

Definition ModelClass_eqb (a b : ModelClass) : bool :=
  match a, b with
  | OrganizationModel, OrganizationModel
  | ProjectModel, ProjectModel
  | TaskModel, TaskModel
  | TaskCommentModel, TaskCommentModel => true
  | _, _ => false
  end.

Definition object_name (m : ModelClass) : string :=
  match m with
  | OrganizationModel => "Organization"
  | ProjectModel => "Project"
  | TaskModel => "Task"
  | TaskCommentModel => "TaskComment"
  end.

(** The exception classes that occur.  All of them derive from Python's
    [Exception]; [OtherException] stands for any further subclass of it
    (IntegrityError, DataError, ValidationError, ...), by class name. *)
Inductive Exception :=
| DoesNotExist (m : ModelClass) (msg : string)
| MultipleObjectsReturned (m : ModelClass) (msg : string)
| PermissionDenied (msg : string)
| FieldError (msg : string)
| ValueError (msg : string)
| ZeroDivisionError (msg : string)
| OtherException (cls : string) (msg : string).

(** [str(e)] *)
Definition str (e : Exception) : string :=
  match e with
  | DoesNotExist _ msg | MultipleObjectsReturned _ msg | PermissionDenied msg
  | FieldError msg | ValueError msg | ZeroDivisionError msg
  | OtherException _ msg => msg
  end.

(** [isinstance(e, M.DoesNotExist)] *)
Definition is_DoesNotExist (m : ModelClass) (e : Exception) : bool :=
  match e with
  | DoesNotExist m' _ => ModelClass_eqb m m'
  | _ => false
  end.

Inductive Result (A : Type) :=
| Return (a : A)
| Raise (e : Exception).
Arguments Return {A} a.
Arguments Raise {A} e.

#[global] Instance Result_ret : MRet Result := fun A a => Return a.

#[global] Instance Result_bind : MBind Result := fun A B k r =>
  match r with
  | Return a => k a
  | Raise e => Raise e
  end.

#[global] Instance Result_fmap : FMap Result := fun A B f r =>
  match r with
  | Return a => Return (f a)
  | Raise e => Raise e
  end.

Definition raises {A} (r : Result A) : bool :=
  match r with Return _ => false | Raise _ => true end.

(** Truth value of an optional string: [None] and [''] are false. *)
Definition truthy_str (s : option string) : bool :=
  match s with
  | Some s => negb (String.eqb s "")
  | None => false
  end.

(** Truth value of an optional object without [__bool__]/[__len__]. *)
Definition truthy_obj {A} (o : option A) : bool :=
  match o with Some _ => true | None => false end.

(** [s.startswith(prefix)] *)
Definition startswith (s pre : string) : bool := String.prefix pre s.

(** ** [django.utils.text.slugify]

    [slugify(value)] with [allow_unicode=False]:
<<
    value = unicodedata.normalize("NFKD", value).encode("ascii", "ignore").decode("ascii")
    value = re.sub(r"[^\w\s-]", "", value.lower())
    return re.sub(r"[-\s]+", "-", value).strip("-_")
>>
    The model is exact on ASCII text.  A character outside ASCII is dropped
    here, where Django first decomposes it. *)

Definition code (c : ascii) : N := N_of_ascii c.

Definition is_ascii (c : ascii) : bool := (code c <? 128)%N.

Definition lower (c : ascii) : ascii :=
  if ((65 <=? code c) && (code c <=? 90))%N then ascii_of_N (code c + 32) else c.

(** [\w] on ASCII *)
Definition is_word (c : ascii) : bool :=
  (((48 <=? code c) && (code c <=? 57))
   || ((65 <=? code c) && (code c <=? 90))
   || ((97 <=? code c) && (code c <=? 122))
   || (code c =? 95))%N.

(** [\s] on ASCII: tab, newline, vertical tab, form feed, carriage return,
    the four separators 28..31 and the space. *)
Definition is_space (c : ascii) : bool :=
  (((9 <=? code c) && (code c <=? 13))
   || ((28 <=? code c) && (code c <=? 31))
   || (code c =? 32))%N.

Definition is_hyphen (c : ascii) : bool := (code c =? 45)%N.

Definition keep_char (c : ascii) : bool := is_word c || is_space c || is_hyphen c.

(** [re.sub(r"[-\s]+", "-", value)]: [pending] tells that the run of
    separators being read has already produced its hyphen. *)
Fixpoint collapse (pending : bool) (l : list ascii) : list ascii :=
  match l with
  | [] => []
  | c :: l' =>
      if is_hyphen c || is_space c
      then (if pending then collapse true l' else "-"%char :: collapse true l')
      else c :: collapse false l'
  end.

Definition strip_char (c : ascii) : bool := is_hyphen c || (code c =? 95)%N.

Fixpoint lstrip (l : list ascii) : list ascii :=
  match l with
  | [] => []
  | c :: l' => if strip_char c then lstrip l' else l
  end.

Definition strip (l : list ascii) : list ascii := rev (lstrip (rev (lstrip l))).

Definition slugify (value : string) : string :=
  let value := List.filter is_ascii (list_ascii_of_string value) in
  let value := List.filter keep_char (List.map lower value) in
  string_of_list_ascii (strip (collapse false value)).


(** ** The data model ([models.py] of the three applications)

    Only the columns that some modelled function reads or writes are kept;
    the two timestamp columns of every model are maintained by the store and
    read by none of them. *)

(** [organizations/models.py], [class Organization].  [org_id] is [None] on
    an instance that has not been saved; [org_slug] is [None] only on an
    instance constructed with [slug=None]. *)
Record Organization := {
  org_id : option Z;
  org_name : string;
  org_slug : option string;
  org_contact_email : string;
  org_description : string;
  org_is_active : bool
}.

(** [projects/models.py], [class Project] *)
Record Project := {
  project_id : Z;
  project_organization : Organization;
  project_name : string;
  project_description : string;
  project_status : string;
  project_due_date : option Z
}.

(** [tasks/models.py], [class Task] *)
Record Task := {
  task_id : Z;
  task_project : Project;
  task_title : string;
  task_description : string;
  task_status : string;
  task_priority : string;
  task_assignee_email : string;
  task_due_date : option Z
}.

(** [tasks/models.py], [class TaskComment] *)
Record TaskComment := {
  comment_id : Z;
  comment_task : Task;
  comment_content : string;
  comment_author_email : string
}.

(** [Task.organization] (a property) *)
Definition Task_organization (self : Task) : Organization :=
  project_organization (task_project self).

(** [TaskComment.organization] (a property) *)
Definition TaskComment_organization (self : TaskComment) : Organization :=
  project_organization (task_project (comment_task self)).

(** [django.db.models.Model.__eq__] on two instances of one model: equal
    primary keys; an instance without primary key is equal to itself only,
    and two snapshots are never the same object. *)
Definition pk_eqb (a b : option Z) : bool :=
  match a, b with
  | Some x, Some y => Z.eqb x y
  | _, _ => false
  end.

Definition Organization_eqb (a b : Organization) : bool := pk_eqb (org_id a) (org_id b).

(** The tables of the store, each in the order its queries return rows. *)
Record DB := {
  db_organizations : list Organization;
  db_projects : list Project;
  db_tasks : list Task;
  db_task_comments : list TaskComment
}.

(** ** The object-relational layer (Django), as far as the code uses it *)

(** [Manager.get] with keyword lookups: the single row satisfying the lookup. *)
Definition objects_get {A} (m : ModelClass) (rows : list A) (lookup : A -> bool) : Result A :=
  match List.filter lookup rows with
  | [] => Raise (DoesNotExist m (object_name m +:+ " matching query does not exist."))
  | [x] => Return x
  | _ => Raise (MultipleObjectsReturned m ("get() returned more than one " +:+ object_name m))
  end.

(** An integer column compared with a string: the string goes through
    Python's [int], and a string that is no number is a [ValueError] raised
    while the query is built. *)
Definition prep_id (int : string -> option Z) (value : string) : Result Z :=
  match int value with
  | Some n => Return n
  | None => Raise (ValueError ("Field 'id' expected a number but got '" +:+ value +:+ "'."))
  end.

(** Rows of any model, for the code that is generic in the model. *)
Inductive Instance :=
| IOrganization (o : Organization)
| IProject (p : Project)
| ITask (t : Task)
| ITaskComment (c : TaskComment).

Record QuerySet := {
  qs_model : ModelClass;
  qs_rows : list Instance
}.

(** The foreign keys declared in the three [models.py].  They are the only
    fields that the lookups built by the code go through. *)
Definition foreign_key (m : ModelClass) (name : string) : option ModelClass :=
  match m with
  | ProjectModel => if String.eqb name "organization" then Some OrganizationModel else None
  | TaskModel => if String.eqb name "project" then Some ProjectModel else None
  | TaskCommentModel => if String.eqb name "task" then Some TaskModel else None
  | OrganizationModel => None
  end.

(** The attributes of each model class that the three [models.py] declare:
    fields, properties, methods, and the reverse accessors that the
    [related_name] of a foreign key adds to its target.  What every model
    class inherits from [models.Model] is the same for all four and contains
    none of the names probed by the code. *)
Definition class_attributes (m : ModelClass) : list string :=
  match m with
  | OrganizationModel =>
      ["name"; "slug"; "contact_email"; "description"; "is_active"; "created_at";
       "updated_at"; "__str__"; "save"; "project_count"; "active_project_count"; "projects"]
  | ProjectModel =>
      ["STATUS_CHOICES"; "organization"; "name"; "description"; "status"; "due_date";
       "created_at"; "updated_at"; "__str__"; "task_count"; "completed_tasks"; "completion_rate";
       "is_overdue"; "get_tasks_by_status"; "tasks"]
  | TaskModel =>
      ["TASK_STATUS_CHOICES"; "PRIORITY_CHOICES"; "project"; "title"; "description";
       "status"; "priority"; "assignee_email"; "due_date"; "created_at"; "updated_at";
       "__str__"; "organization"; "is_overdue"; "comment_count"; "comments"]
  | TaskCommentModel =>
      ["task"; "content"; "author_email"; "created_at"; "updated_at"; "__str__";
       "organization"]
  end.

(** [hasattr(model, name)] *)
Definition hasattr (m : ModelClass) (name : string) : bool :=
  existsb (String.eqb name) (class_attributes m).

(** The model reached from [m] along a lookup path such as
    [project__organization]; [None] when a name is no field. *)
Fixpoint resolve_lookup (m : ModelClass) (path : list string) : option ModelClass :=
  match path with
  | [] => Some m
  | name :: path' =>
      match foreign_key m name with
      | Some m' => resolve_lookup m' path'
      | None => None
      end
  end.

(** The value of a foreign key on a row. *)
Definition related (x : Instance) (name : string) : option Instance :=
  match x with
  | IProject p => if String.eqb name "organization" then Some (IOrganization (project_organization p)) else None
  | ITask t => if String.eqb name "project" then Some (IProject (task_project t)) else None
  | ITaskComment c => if String.eqb name "task" then Some (ITask (comment_task c)) else None
  | IOrganization _ => None
  end.

Fixpoint follow (x : Instance) (path : list string) : option Instance :=
  match path with
  | [] => Some x
  | name :: path' =>
      match related x name with
      | Some y => follow y path'
      | None => None
      end
  end.

Definition row_matches (path : list string) (organization : option Organization) (x : Instance) : bool :=
  match follow x path, organization with
  | Some (IOrganization o), Some organization => Organization_eqb o organization
  | _, _ => false
  end.

(** [queryset.filter(<path>=organization)].  A path that does not lead
    through fields of the model is a [FieldError], raised by [filter]
    itself.  The foreign keys are not nullable, so no row matches [None]. *)
Definition QuerySet_filter (queryset : QuerySet) (path : list string)
    (organization : option Organization) : Result QuerySet :=
  match resolve_lookup (qs_model queryset) path with
  | Some _ =>
      Return {| qs_model := qs_model queryset;
                qs_rows := List.filter (row_matches path organization) (qs_rows queryset) |}
  | None =>
      Raise (FieldError ("Cannot resolve keyword '" +:+ hd "" path +:+ "' into field."))
  end.

(** [queryset.none()] *)
Definition QuerySet_none (queryset : QuerySet) : QuerySet :=
  {| qs_model := qs_model queryset; qs_rows := [] |}.

(** [Task.objects.all()] and its siblings, as generic query sets. *)
Definition Project_objects (db : DB) : QuerySet :=
  {| qs_model := ProjectModel; qs_rows := List.map IProject (db_projects db) |}.

Definition Task_objects (db : DB) : QuerySet :=
  {| qs_model := TaskModel; qs_rows := List.map ITask (db_tasks db) |}.

Definition TaskComment_objects (db : DB) : QuerySet :=
  {| qs_model := TaskCommentModel; qs_rows := List.map ITaskComment (db_task_comments db) |}.

(** ** [organizations/utils.py] *)

(** [MultiTenantQuerySet.filter_by_organization] *)
Definition filter_by_organization (queryset : QuerySet) (organization : option Organization)
    : Result QuerySet :=
  let model := qs_model queryset in
  if hasattr model "organization" then
    QuerySet_filter queryset ["organization"] organization
  else if hasattr model "project" then
    QuerySet_filter queryset ["project"; "organization"] organization
  else if hasattr model "task" then
    QuerySet_filter queryset ["task"; "project"; "organization"] organization
  else
    Return (QuerySet_none queryset).

(** [OrganizationPermissionMixin.check_organization_permission] *)
Definition check_organization_permission (organization : option Organization) : Result bool :=
  match organization with
  | None => Raise (PermissionDenied "Organization context required")
  | Some organization =>
      if negb (org_is_active organization)
      then Raise (PermissionDenied "Organization is not active")
      else Return true
  end.

(** [validate_organization_access] *)
Definition validate_organization_access (organization : option Organization) : Result bool :=
  match organization with
  | None => Raise (PermissionDenied "Organization not found")
  | Some organization =>
      if negb (org_is_active organization)
      then Raise (PermissionDenied "Organization is not active")
      else Return true
  end.

(** ** Python numbers

    A Python [float] is an IEEE 754 binary64 value, here a [spec_float] of the
    Standard Library with 53 bits of precision. *)

Module float.

Definition prec : Z := 53.
Definition emax : Z := 1024.

(** The binary64 value nearest to [n / d] (ties to even), for [n, d > 0]. *)
Definition nearest (negative : bool) (n d : Z) : spec_float :=
  let '(q, e, l) := SFdiv_core_binary prec emax n 0 d 0 in
  binary_round_aux prec emax negative q e l.

(** [float(n)] *)
Definition of_int (n : Z) : spec_float := binary_normalize prec emax n 0 false.

(** [a / b] on two [int]: the quotient, correctly rounded. *)
Definition int_truediv (a b : Z) : Result spec_float :=
  if b =? 0 then Raise (ZeroDivisionError "division by zero")
  else if a =? 0 then Return (S754_zero (b <? 0))
  else Return (nearest (xorb (a <? 0) (b <? 0)) (Z.abs a) (Z.abs b)).

(** [x * n] for a [float] and an [int] *)
Definition mul_int (x : spec_float) (n : Z) : spec_float :=
  SFmul prec emax x (of_int n).

(** The integer nearest to [num / den], ties to the even one. *)
Definition half_even (num den : Z) : Z :=
  let q := num / den in
  let r := num mod den in
  match 2 * r ?= den with
  | Lt => q
  | Gt => q + 1
  | Eq => if Z.even q then q else q + 1
  end.

(** [round(x, 2)]: the exact value of [x] is rounded to two decimals, ties to
    even, and the decimal is converted back to the nearest binary64 value. *)
Definition round2 (x : spec_float) : spec_float :=
  match x with
  | S754_finite s m e =>
      let n := if 0 <=? e then Z.pos m * 2 ^ e * 100
               else half_even (Z.pos m * 100) (2 ^ (- e)) in
      if n =? 0 then S754_zero s else nearest s n 100
  | _ => x
  end.

End float.

(** What a numeric property returns: an [int] or a [float]. *)
Inductive Number :=
| Int (n : Z)
| Float (x : spec_float).

(** ** Requests and responses *)

(** [django.http.HttpRequest].  [req_organization] is the attribute
    [request.organization]: [None] while the attribute does not exist. *)
Record HttpRequest := {
  req_path : string;
  req_META : gmap string string;
  req_GET : gmap string string;
  req_organization : option (option Organization)
}.

(** [request.organization = organization] *)
Definition set_organization (request : HttpRequest) (organization : option Organization) : HttpRequest :=
  {| req_path := req_path request;
     req_META := req_META request;
     req_GET := req_GET request;
     req_organization := Some organization |}.

(** [getattr(request, 'organization', None)] *)
Definition getattr_organization (request : HttpRequest) : option Organization :=
  default None (req_organization request).

(** A response: status code and JSON object (keys in the order written). *)
Record HttpResponse := {
  resp_status : Z;
  resp_data : list (string * string)
}.

(** [JsonResponse(data, status=status)] *)
Definition JsonResponse (data : list (string * string)) (status : Z) : HttpResponse :=
  {| resp_status := status; resp_data := data |}.

(** Handlers run in a state that records every request a view was invoked
    on. *)
Definition Trace := list HttpRequest.
Definition Handler := HttpRequest -> Trace -> HttpResponse * Trace.

(** The view [view], as the handler at the end of the middleware chain. *)
Definition invoke (view : HttpRequest -> HttpResponse) : Handler :=
  fun request trace => (view request, (trace ++ [request])%list).

(** [MiddlewareMixin.__call__] for a middleware that defines
    [process_request] only:
<<
    response = self.process_request(request)
    response = response or self.get_response(request)
>> *)
Definition MiddlewareMixin_call (process_request : HttpRequest -> option HttpResponse)
    (get_response : Handler) : Handler :=
  fun request trace =>
    match process_request request with
    | Some response => (response, trace)
    | None => get_response request trace
    end.

(** ** The Entity Store: writes

    [Model.save] of [django.db.models.Model] and [Manager.create], per model.
    Each returns the instance as saved and the new state of the store, or
    raises. *)
Class EntityStore := {
  Model_save_Organization : DB -> Organization -> Result (Organization * DB);
  Model_save_Project : DB -> Project -> Result DB;
  Model_save_Task : DB -> Task -> Result DB;
  Project_objects_create :
    DB -> Organization -> string -> string -> string -> option Z -> Result (Project * DB);
  Task_objects_create :
    DB -> Project -> string -> option string -> option string -> option string ->
    option string -> option Z -> Result (Task * DB);
  TaskComment_objects_create :
    DB -> Task -> string -> string -> Result (TaskComment * DB)
}.

(** ** A store on lists

    An [EntityStore] that keeps to the constraints declared in the three
    [models.py]: unique organization slug, unique (organization, name) per
    project, no [NULL] in a column that is not nullable.  Primary keys are
    handed out in increasing order.  It is the store on which statements are
    evaluated. *)

Module ListStore.

Definition IntegrityError (msg : string) : Exception := OtherException "IntegrityError" msg.

Definition next_id (ids : list Z) : Z := 1 + fold_right Z.max 0 ids.

Definition slug_is (s : string) (o : Organization) : bool :=
  match org_slug o with
  | Some s' => String.eqb s' s
  | None => false
  end.

Definition has_id (i : Z) (o : Organization) : bool := pk_eqb (org_id o) (Some i).

Definition with_organization (p : Project) (o : Organization) : Project :=
  {| project_id := project_id p; project_organization := o; project_name := project_name p;
     project_description := project_description p; project_status := project_status p;
     project_due_date := project_due_date p |}.

Definition with_project (t : Task) (p : Project) : Task :=
  {| task_id := task_id t; task_project := p; task_title := task_title t;
     task_description := task_description t; task_status := task_status t;
     task_priority := task_priority t; task_assignee_email := task_assignee_email t;
     task_due_date := task_due_date t |}.

Definition with_task (c : TaskComment) (t : Task) : TaskComment :=
  {| comment_id := comment_id c; comment_task := t; comment_content := comment_content c;
     comment_author_email := comment_author_email c |}.

(** A row that changes is seen through every foreign key that leads to it. *)
Definition refresh_organization (i : Z) (o : Organization) (p : Project) : Project :=
  if has_id i (project_organization p) then with_organization p o else p.

Definition refresh_project (f : Project -> Project) (t : Task) : Task :=
  with_project t (f (task_project t)).

Definition refresh_task (f : Task -> Task) (c : TaskComment) : TaskComment :=
  with_task c (f (comment_task c)).

Definition replace_project (p : Project) (p' : Project) : Project :=
  if project_id p' =? project_id p then p else p'.

Definition replace_task (t : Task) (t' : Task) : Task :=
  if task_id t' =? task_id t then t else t'.

Definition save_Organization (db : DB) (self : Organization) : Result (Organization * DB) :=
  match org_slug self with
  | None => Raise (IntegrityError "NOT NULL constraint failed: organizations.slug")
  | Some s =>
      match org_id self with
      | None =>
          if existsb (slug_is s) (db_organizations db)
          then Raise (IntegrityError "UNIQUE constraint failed: organizations.slug")
          else
            let i := next_id (omap org_id (db_organizations db)) in
            let saved :=
              {| org_id := Some i; org_name := org_name self; org_slug := Some s;
                 org_contact_email := org_contact_email self;
                 org_description := org_description self;
                 org_is_active := org_is_active self |} in
            Return (saved,
                    {| db_organizations := db_organizations db ++ [saved];
                       db_projects := db_projects db;
                       db_tasks := db_tasks db;
                       db_task_comments := db_task_comments db |})
      | Some i =>
          if existsb (fun o => slug_is s o && negb (has_id i o)) (db_organizations db)
          then Raise (IntegrityError "UNIQUE constraint failed: organizations.slug")
          else
            let rp := refresh_organization i self in
            Return (self,
                    {| db_organizations :=
                         List.map (fun o => if has_id i o then self else o) (db_organizations db);
                       db_projects := List.map rp (db_projects db);
                       db_tasks := List.map (refresh_project rp) (db_tasks db);
                       db_task_comments :=
                         List.map (refresh_task (refresh_project rp)) (db_task_comments db) |})
      end
  end.

Definition same_name (o : Organization) (name : string) (p : Project) : bool :=
  Organization_eqb (project_organization p) o && String.eqb (project_name p) name.

Definition create_Project (db : DB) (organization : Organization) (name description status : string)
    (due_date : option Z) : Result (Project * DB) :=
  if existsb (same_name organization name) (db_projects db)
  then Raise (IntegrityError "UNIQUE constraint failed: projects.organization_id, projects.name")
  else
    let p := {| project_id := next_id (List.map project_id (db_projects db));
                project_organization := organization; project_name := name;
                project_description := description; project_status := status;
                project_due_date := due_date |} in
    Return (p, {| db_organizations := db_organizations db;
                  db_projects := db_projects db ++ [p];
                  db_tasks := db_tasks db;
                  db_task_comments := db_task_comments db |}).

Definition save_Project (db : DB) (self : Project) : Result DB :=
  if existsb (fun p => same_name (project_organization self) (project_name self) p
                       && negb (project_id p =? project_id self)) (db_projects db)
  then Raise (IntegrityError "UNIQUE constraint failed: projects.organization_id, projects.name")
  else
    let rp := replace_project self in
    Return {| db_organizations := db_organizations db;
              db_projects := List.map rp (db_projects db);
              db_tasks := List.map (refresh_project rp) (db_tasks db);
              db_task_comments := List.map (refresh_task (refresh_project rp)) (db_task_comments db) |}.

Definition create_Task (db : DB) (project : Project) (title : string)
    (description status priority assignee_email : option string) (due_date : option Z)
    : Result (Task * DB) :=
  match description, status, priority, assignee_email with
  | Some description, Some status, Some priority, Some assignee_email =>
      let t := {| task_id := next_id (List.map task_id (db_tasks db));
                  task_project := project; task_title := title;
                  task_description := description; task_status := status;
                  task_priority := priority; task_assignee_email := assignee_email;
                  task_due_date := due_date |} in
      Return (t, {| db_organizations := db_organizations db;
                    db_projects := db_projects db;
                    db_tasks := db_tasks db ++ [t];
                    db_task_comments := db_task_comments db |})
  | _, _, _, _ => Raise (IntegrityError "NOT NULL constraint failed")
  end.

Definition save_Task (db : DB) (self : Task) : Result DB :=
  let rt := replace_task self in
  Return {| db_organizations := db_organizations db;
            db_projects := db_projects db;
            db_tasks := List.map rt (db_tasks db);
            db_task_comments := List.map (refresh_task rt) (db_task_comments db) |}.

Definition create_TaskComment (db : DB) (task : Task) (content author_email : string)
    : Result (TaskComment * DB) :=
  let c := {| comment_id := next_id (List.map comment_id (db_task_comments db));
              comment_task := task; comment_content := content;
              comment_author_email := author_email |} in
  Return (c, {| db_organizations := db_organizations db;
                db_projects := db_projects db;
                db_tasks := db_tasks db;
                db_task_comments := db_task_comments db ++ [c] |}).

Definition store : EntityStore := {|
  Model_save_Organization := save_Organization;
  Model_save_Project := save_Project;
  Model_save_Task := save_Task;
  Project_objects_create := create_Project;
  Task_objects_create := create_Task;
  TaskComment_objects_create := create_TaskComment
|}.

(** Python's [int] on plain decimal numerals: an optional minus sign and
    digits. *)
Definition digit (c : ascii) : option Z :=
  if ((48 <=? code c) && (code c <=? 57))%N then Some (Z.of_N (code c) - 48) else None.

Fixpoint digits (acc : Z) (l : list ascii) : option Z :=
  match l with
  | [] => Some acc
  | c :: l' =>
      match digit c with
      | Some d => digits (10 * acc + d) l'
      | None => None
      end
  end.

Definition int (s : string) : option Z :=
  match list_ascii_of_string s with
  | [] => None
  | c :: l =>
      if is_hyphen c then (match l with [] => None | _ => Z.opp <$> digits 0 l end)
      else digits 0 (c :: l)
  end.

End ListStore.

(** ** Mutation payloads

    What a [mutate] returns: the object field of the payload, [success] and
    [errors]. *)
Record Payload (A : Type) := {
  payload_object : option A;
  success : bool;
  errors : list string
}.
Arguments payload_object {A} _.
Arguments success {A} _.
Arguments errors {A} _.

(** ** A small store and some requests, for evaluation *)

Module Example.

Definition acme : Organization :=
  {| org_id := Some 1; org_name := "Acme"; org_slug := Some "acme";
     org_contact_email := "ops@acme.example"; org_description := ""; org_is_active := true |}.

Definition beta : Organization :=
  {| org_id := Some 2; org_name := "Beta"; org_slug := Some "beta";
     org_contact_email := "ops@beta.example"; org_description := ""; org_is_active := true |}.

(** An organization that was deactivated. *)
Definition gone : Organization :=
  {| org_id := Some 3; org_name := "Gone"; org_slug := Some "gone";
     org_contact_email := "ops@gone.example"; org_description := ""; org_is_active := false |}.

Definition website : Project :=
  {| project_id := 1; project_organization := acme; project_name := "Website";
     project_description := ""; project_status := "ACTIVE"; project_due_date := None |}.

Definition billing : Project :=
  {| project_id := 2; project_organization := beta; project_name := "Billing";
     project_description := ""; project_status := "ACTIVE"; project_due_date := None |}.

(** A project of the deactivated organization. *)
Definition vault : Project :=
  {| project_id := 3; project_organization := gone; project_name := "Vault";
     project_description := ""; project_status := "ON_HOLD"; project_due_date := None |}.

Definition task (id : Z) (project : Project) (title status : string) : Task :=
  {| task_id := id; task_project := project; task_title := title; task_description := "";
     task_status := status; task_priority := "MEDIUM"; task_assignee_email := "";
     task_due_date := None |}.

Definition design : Task := task 1 website "Design" "DONE".
Definition build : Task := task 2 website "Build" "IN_PROGRESS".
Definition test : Task := task 3 website "Test" "TODO".
Definition launch : Task := task 4 website "Launch" "TODO".
Definition invoices : Task := task 5 billing "Invoices" "TODO".

Definition remark : TaskComment :=
  {| comment_id := 1; comment_task := design; comment_content := "Looks good";
     comment_author_email := "ann@acme.example" |}.

Definition db : DB :=
  {| db_organizations := [acme; beta; gone];
     db_projects := [website; billing; vault];
     db_tasks := [design; build; test; launch; invoices];
     db_task_comments := [remark] |}.

(** A request for [path] with the given headers and query parameters, before
    any middleware has run. *)
Definition request (path : string) (headers query : list (string * string)) : HttpRequest :=
  {| req_path := path; req_META := list_to_map headers; req_GET := list_to_map query;
     req_organization := None |}.

(** The context of a resolver whose request was resolved to [organization]. *)
Definition info (organization : option Organization) : HttpRequest :=
  {| req_path := "/graphql/"; req_META := ∅; req_GET := ∅;
     req_organization := Some organization |}.

End Example.

(** ** The backend *)

Section Backend.

(** Python's [int] on a string: [None] where it raises [ValueError]. *)
Variable int : string -> option Z.

Context {store : EntityStore}.

(** *** [organizations/utils.py], continued *)

(** [require_organization_context]: the decorator, applied to a resolver. *)
Definition require_organization_context {A} (func : HttpRequest -> Result A)
    (info : HttpRequest) : Result A :=
  let organization := getattr_organization info in
  if negb (truthy_obj organization)
  then Raise (PermissionDenied "Organization context required")
  else func info.

(** [get_organization_from_request] *)
Definition get_organization_from_request (request : HttpRequest) : option Organization :=
  getattr_organization request.

(** *** [organizations/middleware.py] *)

(** The lookup [slug=org_slug, is_active=True] *)
Definition by_slug (value : string) (o : Organization) : bool :=
  match org_slug o with
  | Some s => String.eqb s value && org_is_active o
  | None => false
  end.

(** The lookup [id=org_id, is_active=True] *)
Definition by_id (value : Z) (o : Organization) : bool :=
  pk_eqb (org_id o) (Some value) && org_is_active o.

(** The body of the [try] statement of [process_request]. *)
Definition lookup_organization (db : DB) (org_slug org_id : option string)
    : Result (option Organization) :=
  if truthy_str org_slug then
    organization ← objects_get OrganizationModel (db_organizations db) (by_slug (default "" org_slug));
    mret (Some organization)
  else if truthy_str org_id then
    n ← prep_id int (default "" org_id);
    organization ← objects_get OrganizationModel (db_organizations db) (by_id n);
    mret (Some organization)
  else
    mret None.

(** The identifiers that [process_request] settles on before the lookup:
    the two headers, or the two query parameters when both headers are
    missing or empty. *)
Definition read_identifiers (request : HttpRequest) : option string * option string :=
  let org_slug := req_META request !! "HTTP_X_ORGANIZATION_SLUG" in
  let org_id := req_META request !! "HTTP_X_ORGANIZATION_ID" in
  if negb (truthy_str org_slug) && negb (truthy_str org_id)
  then (req_GET request !! "organization_slug", req_GET request !! "organization_id")
  else (org_slug, org_id).

(** [OrganizationMiddleware.process_request].  It returns [None] whenever it
    returns; what it leaves behind is the request with its [organization]
    attribute set. *)
Definition OrganizationMiddleware_process_request (db : DB) (request : HttpRequest)
    : Result HttpRequest :=
  let '(org_slug, org_id) := read_identifiers request in
  match lookup_organization db org_slug org_id with
  | Return organization => Return (set_organization request organization)
  | Raise e =>
      if is_DoesNotExist OrganizationModel e
      then Return (set_organization request None)
      else Raise e
  end.

(** [RequireOrganizationMiddleware.EXEMPT_PATHS] *)
Definition EXEMPT_PATHS : list string := ["/admin/"; "/graphql/"; "/api/organizations/"].

(** [RequireOrganizationMiddleware.process_request] *)
Definition RequireOrganizationMiddleware_process_request (request : HttpRequest)
    : option HttpResponse :=
  if existsb (fun exempt_path => startswith (req_path request) exempt_path) EXEMPT_PATHS then None
  else if negb (startswith (req_path request) "/api/") then None
  else if negb (truthy_obj (req_organization request)) || negb (truthy_obj (getattr_organization request))
  then Some (JsonResponse
               [("error", "Organization context required");
                ("message", "Please provide organization via X-Organization-Slug header or organization_slug parameter")]
               400)
  else None.

(** *** [organizations/models.py] *)

Definition with_slug (self : Organization) (slug : string) : Organization :=
  {| org_id := org_id self; org_name := org_name self; org_slug := Some slug;
     org_contact_email := org_contact_email self; org_description := org_description self;
     org_is_active := org_is_active self |}.

(** The instance that [Organization.save] hands to [super().save()]. *)
Definition Organization_before_save (self : Organization) : Organization :=
  if negb (truthy_str (org_slug self)) then with_slug self (slugify (org_name self)) else self.

(** [Organization.save] *)
Definition Organization_save (db : DB) (self : Organization) : Result (Organization * DB) :=
  Model_save_Organization db (Organization_before_save self).

(** [Organization.objects.create(name=..., contact_email=..., description=...,
    slug=...)]: the instance is constructed with the defaults of the model
    and saved. *)
Definition Organization_objects_create (db : DB) (name contact_email description : string)
    (slug : option string) : Result (Organization * DB) :=
  Organization_save db
    {| org_id := None; org_name := name; org_slug := slug;
       org_contact_email := contact_email; org_description := description;
       org_is_active := true |}.

(** *** [projects/models.py] *)

(** [self.tasks]: the rows of the task table whose project is [self]. *)
Definition Project_tasks (db : DB) (self : Project) : list Task :=
  List.filter (fun t => project_id (task_project t) =? project_id self) (db_tasks db).

(** [Project.task_count] *)
Definition Project_task_count (db : DB) (self : Project) : Z :=
  Z.of_nat (length (Project_tasks db self)).

(** [Project.completed_tasks] *)
Definition Project_completed_tasks (db : DB) (self : Project) : Z :=
  Z.of_nat (length (List.filter (fun t => String.eqb (task_status t) "DONE") (Project_tasks db self))).

(** [Project.completion_rate] *)
Definition Project_completion_rate (db : DB) (self : Project) : Result Number :=
  let total := Project_task_count db self in
  if total =? 0 then Return (Int 0)
  else
    q ← float.int_truediv (Project_completed_tasks db self) total;
    mret (Float (float.round2 (float.mul_int q 100))).

(** *** Queries of [projects/schema.py] and [tasks/schema.py] *)

(** The lookup [pk=id] *)
Definition pk_is {A} (pk : A -> Z) (id : Z) (x : A) : bool := pk x =? id.

(** The lookup [pk=id] on organizations *)
Definition org_pk_is (id : Z) (o : Organization) : bool := pk_eqb (org_id o) (Some id).

(** [Organization.objects.get(pk=id)] and its siblings, for an [id] that
    arrives as a string. *)
Definition Organization_objects_get (db : DB) (id : string) : Result Organization :=
  n ← prep_id int id;
  objects_get OrganizationModel (db_organizations db) (org_pk_is n).

Definition Project_objects_get (db : DB) (id : string) : Result Project :=
  n ← prep_id int id;
  objects_get ProjectModel (db_projects db) (pk_is project_id n).

Definition Task_objects_get (db : DB) (id : string) : Result Task :=
  n ← prep_id int id;
  objects_get TaskModel (db_tasks db) (pk_is task_id n).

Definition TaskComment_objects_get (db : DB) (id : string) : Result TaskComment :=
  n ← prep_id int id;
  objects_get TaskCommentModel (db_task_comments db) (pk_is comment_id n).

(** [organization and owner != organization] *)
Definition other_tenant (organization : option Organization) (owner : Organization) : bool :=
  match organization with
  | Some organization => negb (Organization_eqb owner organization)
  | None => false
  end.

(** [try: ... except M.DoesNotExist: return fallback] *)
Definition except_DoesNotExist {A} (m : ModelClass) (body : Result A) (fallback : A) : Result A :=
  match body with
  | Return a => Return a
  | Raise e => if is_DoesNotExist m e then Return fallback else Raise e
  end.

(** [ProjectQuery.resolve_project] *)
Definition resolve_project (db : DB) (info : HttpRequest) (id : string) : Result (option Project) :=
  except_DoesNotExist ProjectModel
    (project ← Project_objects_get db id;
     let organization := getattr_organization info in
     if other_tenant organization (project_organization project)
     then Raise (PermissionDenied "Access denied to this project")
     else mret (Some project))
    None.

(** [ProjectQuery.resolve_projects] *)
Definition resolve_projects (db : DB) (info : HttpRequest) : list Project :=
  db_projects db.

(** [TaskQuery.resolve_task] *)
Definition resolve_task (db : DB) (info : HttpRequest) (id : string) : Result (option Task) :=
  except_DoesNotExist TaskModel
    (task ← Task_objects_get db id;
     let organization := getattr_organization info in
     if other_tenant organization (project_organization (task_project task))
     then Raise (PermissionDenied "Access denied to this task")
     else mret (Some task))
    None.

(** [TaskQuery.resolve_tasks] *)
Definition resolve_tasks (db : DB) (info : HttpRequest) : list Task :=
  db_tasks db.

(** [TaskQuery.resolve_tasks_by_project]; its parameter [project_id] is [id]
    here. *)
Definition resolve_tasks_by_project (db : DB) (info : HttpRequest) (id : string)
    : Result (list Task) :=
  except_DoesNotExist ProjectModel
    (project ← Project_objects_get db id;
     let organization := getattr_organization info in
     if other_tenant organization (project_organization project)
     then Raise (PermissionDenied "Access denied to this project")
     else mret (Project_tasks db project))
    [].

(** [TaskQuery.resolve_task_comment] *)
Definition resolve_task_comment (db : DB) (info : HttpRequest) (id : string)
    : Result (option TaskComment) :=
  except_DoesNotExist TaskCommentModel
    (comment ← TaskComment_objects_get db id;
     let organization := getattr_organization info in
     if other_tenant organization (project_organization (task_project (comment_task comment)))
     then Raise (PermissionDenied "Access denied to this comment")
     else mret (Some comment))
    None.

(** [TaskQuery.resolve_task_comments]; its parameter [task_id] is [id] here. *)
Definition resolve_task_comments (db : DB) (info : HttpRequest) (id : string)
    : Result (list TaskComment) :=
  except_DoesNotExist TaskModel
    (task ← Task_objects_get db id;
     let organization := getattr_organization info in
     if other_tenant organization (project_organization (task_project task))
     then Raise (PermissionDenied "Access denied to this task")
     else mret (List.filter (fun c => task_id (comment_task c) =? task_id task)
                  (db_task_comments db)))
    [].

(** *** Mutations

    A keyword argument that GraphQL may leave out has type
    [option (option _)]: [None] when the key is not in [kwargs], [Some None]
    when it is there with the value [None]. *)

Definition succeeded {A} (x : A) : Payload A :=
  {| payload_object := Some x; success := true; errors := [] |}.

Definition failed {A} (messages : list string) : Payload A :=
  {| payload_object := None; success := false; errors := messages |}.

(** [kwargs.get(key, fallback)] *)
Definition kwargs_get {A} (value : option (option A)) (fallback : option A) : option A :=
  default fallback value.

(** [for field, value in kwargs.items(): if value is not None:
    setattr(obj, field, value)], for one field whose present value is
    [old]. *)
Definition setattr_if_given {A} (value : option (option A)) (old : A) : A :=
  match value with
  | Some (Some v) => v
  | _ => old
  end.

(** [value or fallback] on an optional string *)
Definition or_str (value : option string) (fallback : string) : string :=
  match value with
  | Some s => if String.eqb s "" then fallback else s
  | None => fallback
  end.

(** The two handlers that close every [mutate] with a lookup:
<<
    except M.DoesNotExist: ... errors=["<M> not found"]
    except Exception as e: ... errors=[str(e)]
>> *)
Definition rendered (m : ModelClass) (not_found : string) (e : Exception) : list string :=
  if is_DoesNotExist m e then [not_found] else [str e].

Definition handle {A} (m : ModelClass) (not_found : string) (db : DB)
    (body : Result (A * DB)) : Payload A * DB :=
  match body with
  | Return (x, db') => (succeeded x, db')
  | Raise e => (failed (rendered m not_found e), db)
  end.

(** [CreateOrganizationMutation.mutate] *)
Definition CreateOrganizationMutation_mutate (db : DB) (info : HttpRequest)
    (name contact_email : string) (description slug : option string)
    : Payload Organization * DB :=
  match Organization_objects_create db name contact_email (or_str description "") slug with
  | Return (organization, db') => (succeeded organization, db')
  | Raise e => (failed [str e], db)
  end.

Record UpdateOrganizationKwargs := {
  uo_name : option (option string);
  uo_contact_email : option (option string);
  uo_description : option (option string);
  uo_is_active : option (option bool)
}.

(** The loop of [UpdateOrganizationMutation.mutate] over [kwargs.items()] *)
Definition Organization_setattrs (kwargs : UpdateOrganizationKwargs) (organization : Organization)
    : Organization :=
  {| org_id := org_id organization;
     org_name := setattr_if_given (uo_name kwargs) (org_name organization);
     org_slug := org_slug organization;
     org_contact_email := setattr_if_given (uo_contact_email kwargs) (org_contact_email organization);
     org_description := setattr_if_given (uo_description kwargs) (org_description organization);
     org_is_active := setattr_if_given (uo_is_active kwargs) (org_is_active organization) |}.

(** [UpdateOrganizationMutation.mutate] *)
Definition UpdateOrganizationMutation_mutate (db : DB) (info : HttpRequest) (id : string)
    (kwargs : UpdateOrganizationKwargs) : Payload Organization * DB :=
  handle OrganizationModel "Organization not found" db
    (organization ← Organization_objects_get db id;
     Organization_save db (Organization_setattrs kwargs organization)).

(** [CreateProjectMutation.mutate] *)
Definition CreateProjectMutation_mutate (db : DB) (info : HttpRequest)
    (organization_id name : string) (description status : option string) (due_date : option Z)
    : Payload Project * DB :=
  handle OrganizationModel "Organization not found" db
    (organization ← Organization_objects_get db organization_id;
     Project_objects_create db organization name (or_str description "")
       (or_str status "ACTIVE") due_date).

Record UpdateProjectKwargs := {
  up_name : option (option string);
  up_description : option (option string);
  up_status : option (option string);
  up_due_date : option (option Z)
}.

(** The loop of [UpdateProjectMutation.mutate] over [kwargs.items()] *)
Definition Project_setattrs (kwargs : UpdateProjectKwargs) (project : Project) : Project :=
  {| project_id := project_id project;
     project_organization := project_organization project;
     project_name := setattr_if_given (up_name kwargs) (project_name project);
     project_description := setattr_if_given (up_description kwargs) (project_description project);
     project_status := setattr_if_given (up_status kwargs) (project_status project);
     project_due_date :=
       match up_due_date kwargs with
       | Some (Some d) => Some d
       | _ => project_due_date project
       end |}.

(** [UpdateProjectMutation.mutate] *)
Definition UpdateProjectMutation_mutate (db : DB) (info : HttpRequest) (id : string)
    (kwargs : UpdateProjectKwargs) : Payload Project * DB :=
  handle ProjectModel "Project not found" db
    (project ← Project_objects_get db id;
     let project := Project_setattrs kwargs project in
     db' ← Model_save_Project db project;
     mret (project, db')).

Record CreateTaskKwargs := {
  ct_description : option (option string);
  ct_status : option (option string);
  ct_priority : option (option string);
  ct_assignee_email : option (option string);
  ct_due_date : option (option Z)
}.

(** [CreateTaskMutation.mutate]; its parameter [project_id] is [id] here. *)
Definition CreateTaskMutation_mutate (db : DB) (info : HttpRequest) (id title : string)
    (kwargs : CreateTaskKwargs) : Payload Task * DB :=
  handle ProjectModel "Project not found" db
    (project ← Project_objects_get db id;
     Task_objects_create db project title
       (kwargs_get (ct_description kwargs) (Some ""))
       (kwargs_get (ct_status kwargs) (Some "TODO"))
       (kwargs_get (ct_priority kwargs) (Some "MEDIUM"))
       (kwargs_get (ct_assignee_email kwargs) (Some ""))
       (kwargs_get (ct_due_date kwargs) None)).

Record UpdateTaskKwargs := {
  ut_title : option (option string);
  ut_description : option (option string);
  ut_status : option (option string);
  ut_priority : option (option string);
  ut_assignee_email : option (option string);
  ut_due_date : option (option Z)
}.

(** The loop of [UpdateTaskMutation.mutate] over [kwargs.items()] *)
Definition Task_setattrs (kwargs : UpdateTaskKwargs) (task : Task) : Task :=
  {| task_id := task_id task;
     task_project := task_project task;
     task_title := setattr_if_given (ut_title kwargs) (task_title task);
     task_description := setattr_if_given (ut_description kwargs) (task_description task);
     task_status := setattr_if_given (ut_status kwargs) (task_status task);
     task_priority := setattr_if_given (ut_priority kwargs) (task_priority task);
     task_assignee_email := setattr_if_given (ut_assignee_email kwargs) (task_assignee_email task);
     task_due_date :=
       match ut_due_date kwargs with
       | Some (Some d) => Some d
       | _ => task_due_date task
       end |}.

(** [UpdateTaskMutation.mutate] *)
Definition UpdateTaskMutation_mutate (db : DB) (info : HttpRequest) (id : string)
    (kwargs : UpdateTaskKwargs) : Payload Task * DB :=
  handle TaskModel "Task not found" db
    (task ← Task_objects_get db id;
     let task := Task_setattrs kwargs task in
     db' ← Model_save_Task db task;
     mret (task, db')).

(** [AddTaskCommentMutation.mutate]; its parameter [task_id] is [id] here. *)
Definition AddTaskCommentMutation_mutate (db : DB) (info : HttpRequest)
    (id content author_email : string) : Payload TaskComment * DB :=
  handle TaskModel "Task not found" db
    (task ← Task_objects_get db id;
     TaskComment_objects_create db task content author_email).

(** *** The resolution order, in the words of the specification

    The four sources of a tenant identifier, in their order.  A source is
    present when it holds a non-empty string; the first one present decides,
    and the organization is looked up by that identifier among the active
    ones, a miss giving no tenant. *)






(** No active organization of the store answers to the identifiers
    [org_slug] and [org_id] that a request settled on. *)
Definition lookup_misses (db : DB) (org_slug org_id : option string) : Prop :=
  if truthy_str org_slug then
    forall o, In o (db_organizations db) -> by_slug (default "" org_slug) o = false
  else if truthy_str org_id then
    exists n, int (default "" org_id) = Some n
              /\ forall o, In o (db_organizations db) -> by_id n o = false
  else True.

(** *** The decision of the Scope Enforcer

    What a resolver [resolve] does with an entity [e] whose ownership chain
    ends in the organization with primary key [a]: a context tenant other
    than that organization is denied with [PermissionDenied], that
    organization itself and the absence of a tenant get the entity. *)
Definition scope_decision {E} (resolve : HttpRequest -> Result (option E)) (denied : string)
    (e : E) (a : Z) : Prop :=
  forall info : HttpRequest,
    (forall B, getattr_organization info = Some B -> org_id B <> Some a ->
               resolve info = Raise (PermissionDenied denied))
    /\ (forall A, getattr_organization info = Some A -> org_id A = Some a ->
                  resolve info = Return (Some e))
    /\ (getattr_organization info = None -> resolve info = Return (Some e)).

(** *** Exceptions at the mutation boundary

    A mutation that looks something up with [lookup] and then writes with
    [write] has [outcome] as its result: whatever either of the two raises
    becomes a payload without object, with [success] false and the exception
    rendered in [errors], the store being left as it was; and when neither
    raises, the payload carries what was written. *)
Definition converts {A X} (m : ModelClass) (not_found : string) (db : DB)
    (lookup : Result X) (write : X -> Result (A * DB)) (outcome : Payload A * DB) : Prop :=
  (forall e, lookup = Raise e ->
     outcome = ({| payload_object := None; success := false;
                   errors := if is_DoesNotExist m e then [not_found] else [str e] |}, db))
  /\ (forall x e, lookup = Return x -> write x = Raise e ->
        outcome = ({| payload_object := None; success := false;
                      errors := if is_DoesNotExist m e then [not_found] else [str e] |}, db))
  /\ (forall x y db', lookup = Return x -> write x = Return (y, db') ->
        outcome = ({| payload_object := Some y; success := true; errors := [] |}, db')).

(** *** Constraints of the store *)

(** Primary keys and organization slugs are unique, and every stored
    organization has a primary key. *)
Record constraints (db : DB) : Prop := {
  organizations_saved : Forall (fun o => is_Some (org_id o)) (db_organizations db);
  organizations_pk : NoDup (List.map org_id (db_organizations db));
  organizations_slug : NoDup (List.map org_slug (db_organizations db));
  projects_pk : NoDup (List.map project_id (db_projects db));
  tasks_pk : NoDup (List.map task_id (db_tasks db));
  task_comments_pk : NoDup (List.map comment_id (db_task_comments db))
}.

End Backend.

(** ** The rest of the three applications *)

(** [str(n)] for an [int] *)
Definition str_int (n : Z) : string := NilEmpty.string_of_int (Z.to_int n).

(** What a response header holds after [response[name] = value]: the value
    itself when it is a string, [str(value)] otherwise. *)
Definition header_of_id (id : option Z) : string :=
  match id with
  | Some n => str_int n
  | None => "None"
  end.

Definition header_of_slug (slug : option string) : string := default "None" slug.

(** A response with the headers that a middleware sets on it. *)
Record Response := {
  response_content : HttpResponse;
  response_headers : gmap string string
}.

(** [response[name] = value] *)
Definition set_header (response : Response) (name value : string) : Response :=
  {| response_content := response_content response;
     response_headers := <[name := value]> (response_headers response) |}.

(** [OrganizationMiddleware.process_response] *)
Definition OrganizationMiddleware_process_response (request : HttpRequest) (response : Response)
    : Response :=
  match req_organization request with
  | Some (Some organization) =>
      let response := set_header response "X-Organization-ID" (header_of_id (org_id organization)) in
      set_header response "X-Organization-Slug" (header_of_slug (org_slug organization))
  | _ => response
  end.

(** [Project.objects.filter(organization=organization)] *)
Definition Project_objects_filter (db : DB) (organization : Organization) : list Project :=
  List.filter (fun p => Organization_eqb (project_organization p) organization) (db_projects db).

(** [Organization.project_count] *)
Definition Organization_project_count (db : DB) (self : Organization) : Z :=
  Z.of_nat (length (Project_objects_filter db self)).

(** [Organization.active_project_count] *)
Definition Organization_active_project_count (db : DB) (self : Organization) : Z :=
  Z.of_nat (length (List.filter (fun p => String.eqb (project_status p) "ACTIVE")
                      (Project_objects_filter db self))).

(** [Project.is_overdue], on the day [today] *)
Definition Project_is_overdue (today : Z) (self : Project) : bool :=
  match project_due_date self with
  | None => false
  | Some due_date => (due_date <? today) && negb (String.eqb (project_status self) "COMPLETED")
  end.

(** [Task.is_overdue], at the time [now] *)
Definition Task_is_overdue (now : Z) (self : Task) : bool :=
  match task_due_date self with
  | None => false
  | Some due_date => (due_date <? now) && negb (String.eqb (task_status self) "DONE")
  end.

(** [Task.comment_count] *)
Definition Task_comment_count (db : DB) (self : Task) : Z :=
  Z.of_nat (length (List.filter (fun c => task_id (comment_task c) =? task_id self)
                      (db_task_comments db))).

(** [ProjectStatsType] *)
Record ProjectStats := {
  total_projects : Z;
  active_projects : Z;
  completed_projects : Z;
  overdue_projects : Z;
  total_tasks : Z;
  completed_tasks : Z;
  overall_completion_rate : spec_float
}.

(** [sum(f(x) for x in l)] *)
Definition sum {A} (f : A -> Z) (l : list A) : Z := fold_right (fun x acc => f x + acc) 0 l.

(** The lookup [due_date__lt=today, status__in=['ACTIVE', 'ON_HOLD']] *)
Definition counted_overdue (today : Z) (p : Project) : bool :=
  match project_due_date p with
  | Some due_date =>
      (due_date <? today)
      && (String.eqb (project_status p) "ACTIVE" || String.eqb (project_status p) "ON_HOLD")
  | None => false
  end.

(** [Organization.objects.all()], as a generic query set *)
Definition Organization_objects (db : DB) : QuerySet :=
  {| qs_model := OrganizationModel; qs_rows := List.map IOrganization (db_organizations db) |}.

(** The foreign keys of the store lead to rows of the store: the project of
    every task is a row of the project table, and the task of every comment
    a row of the task table. *)
Record referential_integrity (db : DB) : Prop := {
  tasks_project : Forall (fun t => In (task_project t) (db_projects db)) (db_tasks db);
  task_comments_task : Forall (fun c => In (comment_task c) (db_tasks db)) (db_task_comments db)
}.

(** Text within ASCII, on which the model of [slugify] is exact. *)
Definition ascii_only (s : string) : Prop :=
  Forall (fun c => is_ascii c = true) (list_ascii_of_string s).

(** The characters that [SlugField] accepts, lower case only: [a-z], [0-9],
    the underscore and the hyphen. *)
Definition slug_char (c : ascii) : bool :=
  (((97 <=? code c) && (code c <=? 122))
   || ((48 <=? code c) && (code c <=? 57))
   || (code c =? 95) || (code c =? 45))%N.

(** A second small store: the project Website with its one task done, and
    a cancelled project that was due on day 10. *)
Module Example2.

Definition shelved : Project :=
  {| project_id := 2; project_organization := Example.acme; project_name := "Shelved";
     project_description := ""; project_status := "CANCELLED"; project_due_date := Some 10 |}.

Definition report : Task :=
  {| task_id := 2; task_project := shelved; task_title := "Report"; task_description := "";
     task_status := "TODO"; task_priority := "LOW"; task_assignee_email := "";
     task_due_date := Some 1000 |}.

Definition db : DB :=
  {| db_organizations := [Example.acme];
     db_projects := [Example.website; shelved];
     db_tasks := [Example.design; report];
     db_task_comments := [Example.remark] |}.

(** A project with three tasks, one of them done. *)
Definition sprint : Project :=
  {| project_id := 3; project_organization := Example.acme; project_name := "Sprint";
     project_description := ""; project_status := "ACTIVE"; project_due_date := None |}.

Definition sprint_db : DB :=
  {| db_organizations := [Example.acme];
     db_projects := [sprint];
     db_tasks := [Example.task 1 sprint "Plan" "DONE"; Example.task 2 sprint "Code" "TODO";
                  Example.task 3 sprint "Ship" "IN_PROGRESS"];
     db_task_comments := [] |}.

Definition mark_done : UpdateTaskKwargs :=
  {| ut_title := None; ut_description := None; ut_status := Some (Some "DONE");
     ut_priority := None; ut_assignee_email := None; ut_due_date := None |}.

Definition rename (name : string) : UpdateOrganizationKwargs :=
  {| uo_name := Some (Some name); uo_contact_email := None; uo_description := None;
     uo_is_active := None |}.

End Example2.

Section Rest.

Variable int : string -> option Z.

Context {store : EntityStore}.

(** The inner handler of [OrganizationMiddleware] sees the request with its
    tenant; the response comes back through [process_response].
    [MiddlewareMixin.__call__] for a middleware with both hooks, whose
    [process_request] returns [None]:
<<
    response = self.process_request(request)
    response = response or self.get_response(request)
    response = self.process_response(request, response)
>> *)
Definition OrganizationMiddleware_call (db : DB) (get_response : Handler)
    (request : HttpRequest) (trace : Trace) : Result (Response * Trace) :=
  request ← OrganizationMiddleware_process_request int db request;
  let '(response, trace) := get_response request trace in
  mret (OrganizationMiddleware_process_response request
          {| response_content := response; response_headers := ∅ |},
        trace).

(** The two middlewares in the order that the second one asks for, around
    a view. *)
Definition middleware_chain (db : DB) (view : HttpRequest -> HttpResponse) :=
  OrganizationMiddleware_call db
    (MiddlewareMixin_call RequireOrganizationMiddleware_process_request (invoke view)).

(** *** Queries of [organizations/schema.py] *)

(** [OrganizationQuery.resolve_organization] *)
Definition resolve_organization (db : DB) (info : HttpRequest) (id : string)
    : Result (option Organization) :=
  except_DoesNotExist OrganizationModel (Some <$> Organization_objects_get int db id) None.

(** [OrganizationQuery.resolve_organizations] *)
Definition resolve_organizations (db : DB) (info : HttpRequest) : list Organization :=
  List.filter org_is_active (db_organizations db).

(** [OrganizationQuery.resolve_organization_by_slug] *)
Definition resolve_organization_by_slug (db : DB) (info : HttpRequest) (slug : string)
    : Result (option Organization) :=
  except_DoesNotExist OrganizationModel
    (Some <$> objects_get OrganizationModel (db_organizations db) (by_slug slug)) None.

(** *** The other queries of [projects/schema.py] *)

(** The [try] body shared by [resolve_projects_by_organization] and
    [resolve_project_stats]:
<<
    requested_org = Organization.objects.get(pk=organization_id)
    if context_org and requested_org != context_org:
        raise PermissionDenied("Access denied to this organization")
    organization = requested_org
>> *)
Definition requested_organization (db : DB) (context_org : option Organization)
    (organization_id : string) : Result Organization :=
  requested_org ← Organization_objects_get int db organization_id;
  if other_tenant context_org requested_org
  then Raise (PermissionDenied "Access denied to this organization")
  else mret requested_org.

(** [ProjectQuery.resolve_projects_by_organization] *)
Definition resolve_projects_by_organization (db : DB) (info : HttpRequest)
    (organization_id : option string) : Result (list Project) :=
  let context_org := getattr_organization info in
  if truthy_str organization_id then
    match requested_organization db context_org (default "" organization_id) with
    | Return organization => mret (Project_objects_filter db organization)
    | Raise e => if is_DoesNotExist OrganizationModel e then mret [] else Raise e
    end
  else
    match context_org with
    | None => mret (db_projects db)
    | Some organization => mret (Project_objects_filter db organization)
    end.

(** The statistics that [resolve_project_stats] computes over the projects
    it has selected; [float.of_int 100] is the literal [100.0], and the zero
    is the literal [0.0]. *)
Definition project_stats (db : DB) (today : Z) (projects : list Project) : Result ProjectStats :=
  let count (test : Project -> bool) := Z.of_nat (length (List.filter test projects)) in
  let total_tasks := sum (Project_task_count db) projects in
  let completed_tasks := sum (Project_completed_tasks db) projects in
  overall_completion_rate ←
    (if 0 <? total_tasks
     then q ← float.int_truediv completed_tasks total_tasks;
          mret (SFmul float.prec float.emax q (float.of_int 100))
     else mret (S754_zero false));
  mret {| total_projects := Z.of_nat (length projects);
          active_projects := count (fun p => String.eqb (project_status p) "ACTIVE");
          completed_projects := count (fun p => String.eqb (project_status p) "COMPLETED");
          overdue_projects := count (counted_overdue today);
          total_tasks := total_tasks;
          completed_tasks := completed_tasks;
          overall_completion_rate := float.round2 overall_completion_rate |}.

(** [ProjectQuery.resolve_project_stats], on the day [today] *)
Definition resolve_project_stats (db : DB) (today : Z) (info : HttpRequest)
    (organization_id : option string) : Result (option ProjectStats) :=
  let context_org := getattr_organization info in
  if truthy_str organization_id then
    match requested_organization db context_org (default "" organization_id) with
    | Return organization => Some <$> project_stats db today (Project_objects_filter db organization)
    | Raise e => if is_DoesNotExist OrganizationModel e then mret None else Raise e
    end
  else
    match context_org with
    | None => Some <$> project_stats db today (db_projects db)
    | Some organization => Some <$> project_stats db today (Project_objects_filter db organization)
    end.

End Rest.

(** * Properties *)

(** ** [slugify] on some names *)

Example slugify_my_org : slugify "My Org" = "my-org".
Proof. reflexivity. Qed.

Example slugify_test_organization : slugify "Test Organization" = "test-organization".
Proof. reflexivity. Qed.

Example slugify_punctuation : slugify "  --Hello,   World!__ " = "hello-world".
Proof. reflexivity. Qed.

(** ** Lookups in a table *)

Lemma filter_nothing {A} (test : A -> bool) (rows : list A) :
  (forall y, In y rows -> test y = false) -> List.filter test rows = [].
Proof.
  induction rows as [|a rows IH]; intros Hnone; simpl; [reflexivity|].
  rewrite (Hnone a (or_introl eq_refl)).
  apply IH. intros y Hy. apply Hnone. now right.
Qed.

Lemma filter_single {A K} (key : A -> K) (test : A -> bool) (rows : list A) (x : A) :
  NoDup (List.map key rows) ->
  In x rows ->
  test x = true ->
  (forall y, In y rows -> test y = true -> key y = key x) ->
  List.filter test rows = [x].
Proof.
  induction rows as [|a rows IH]; intros Hnodup Hin Hx Hkey; [destruct Hin|].
  simpl in Hnodup. inversion Hnodup as [|k ks Hfresh Hrest]; subst.
  assert (Hmap : forall y, In y rows -> In (key y) (List.map key rows))
    by (intros y Hy; now apply in_map).
  destruct Hin as [->|Hin]; simpl.
  - rewrite Hx. f_equal. apply filter_nothing.
    intros y Hy. destruct (test y) eqn:Hty; [|reflexivity].
    exfalso. apply Hfresh, list_elem_of_In.
    rewrite <- (Hkey y (or_intror Hy) Hty). now apply Hmap.
  - destruct (test a) eqn:Hta.
    + exfalso. apply Hfresh, list_elem_of_In.
      rewrite (Hkey a (or_introl eq_refl) Hta). now apply Hmap.
    + apply IH; auto. intros y Hy. apply Hkey. now right.
Qed.

Lemma objects_get_missing {A} (m : ModelClass) (rows : list A) (lookup : A -> bool) :
  (forall y, In y rows -> lookup y = false) ->
  objects_get m rows lookup
  = Raise (DoesNotExist m (object_name m +:+ " matching query does not exist.")).
Proof. intros Hnone. unfold objects_get. now rewrite filter_nothing. Qed.

Lemma objects_get_found {A K} (key : A -> K) (m : ModelClass) (rows : list A)
    (lookup : A -> bool) (x : A) :
  NoDup (List.map key rows) ->
  In x rows ->
  lookup x = true ->
  (forall y, In y rows -> lookup y = true -> key y = key x) ->
  objects_get m rows lookup = Return x.
Proof.
  intros Hnodup Hin Hx Hkey. unfold objects_get.
  now rewrite (filter_single key lookup rows x).
Qed.

(** What [get] returns is a row of the table that satisfies the lookup. *)
Lemma objects_get_Return {A} (m : ModelClass) (rows : list A) (lookup : A -> bool) (x : A) :
  objects_get m rows lookup = Return x -> In x rows /\ lookup x = true.
Proof.
  unfold objects_get. intros H.
  destruct (List.filter lookup rows) as [|y [|z l]] eqn:Hf; inversion H; subst.
  apply filter_In. rewrite Hf. now left.
Qed.

Lemma objects_get_pk {A} (pk : A -> Z) (m : ModelClass) (rows : list A) (x : A) :
  NoDup (List.map pk rows) -> In x rows ->
  objects_get m rows (pk_is pk (pk x)) = Return x.
Proof.
  intros Hnodup Hin. apply (objects_get_found pk); auto.
  - apply Z.eqb_refl.
  - intros y _ Hy. now apply Z.eqb_eq in Hy.
Qed.

(** ** The filter of the Scope Enforcer *)

(** On projects the filter takes the first branch, and the query it builds
    keeps the projects of the organization. *)
Lemma filter_by_organization_projects (db : DB) (A : Organization) :
  filter_by_organization (Project_objects db) (Some A)
  = Return {| qs_model := ProjectModel;
              qs_rows := List.map IProject
                           (List.filter (fun p => Organization_eqb (project_organization p) A)
                              (db_projects db)) |}.
Proof.
  unfold filter_by_organization, QuerySet_filter. simpl. do 2 f_equal.
  induction (db_projects db) as [|p l IH]; simpl; [reflexivity|].
  unfold row_matches at 1. simpl.
  destruct (Organization_eqb (project_organization p) A); simpl; now rewrite IH.
Qed.

(** The query that the second branch would build, on tasks: it keeps the
    tasks whose project belongs to the organization. *)
Lemma QuerySet_filter_tasks_through_project (db : DB) (A : Organization) :
  QuerySet_filter (Task_objects db) ["project"; "organization"] (Some A)
  = Return {| qs_model := TaskModel;
              qs_rows := List.map ITask
                           (List.filter
                              (fun t => Organization_eqb (project_organization (task_project t)) A)
                              (db_tasks db)) |}.
Proof.
  unfold QuerySet_filter. simpl. do 2 f_equal.
  induction (db_tasks db) as [|t l IH]; simpl; [reflexivity|].
  unfold row_matches at 1. simpl.
  destruct (Organization_eqb (project_organization (task_project t)) A); simpl; now rewrite IH.
Qed.

(** [Task] and [TaskComment] both define a property named [organization],
    so the first probe of the filter succeeds on them. *)
Lemma hasattr_organization_property :
  hasattr TaskModel "organization" = true /\ hasattr TaskCommentModel "organization" = true
  /\ foreign_key TaskModel "organization" = None
  /\ foreign_key TaskCommentModel "organization" = None.
Proof. repeat split; reflexivity. Qed.

(** C1, as the code has it: on any set of tasks, and for any tenant, the
    filter of the Scope Enforcer raises [FieldError] instead of returning the
    tasks of the tenant.  The class [Task] has a property [organization], so
    the filter takes the branch of a direct [organization] field, and the
    query [filter(organization=...)] names no field of [Task]. *)
Theorem filter_by_organization_tasks_raises (db : DB) (organization : option Organization) :
  filter_by_organization (Task_objects db) organization
  = Raise (FieldError "Cannot resolve keyword 'organization' into field.").
Proof. reflexivity. Qed.

(** The same on comments: the branch through [task] is never reached. *)
Lemma filter_by_organization_comments_raises (db : DB) (organization : option Organization) :
  filter_by_organization (TaskComment_objects db) organization
  = Raise (FieldError "Cannot resolve keyword 'organization' into field.").
Proof. reflexivity. Qed.

(** On the example store the tasks of Acme are four, and the filter returns
    none of them. *)
Example filter_by_organization_example :
  QuerySet_filter (Task_objects Example.db) ["project"; "organization"] (Some Example.acme)
  = Return {| qs_model := TaskModel;
              qs_rows := List.map ITask [Example.design; Example.build; Example.test; Example.launch] |}
  /\ raises (filter_by_organization (Task_objects Example.db) (Some Example.acme)) = true.
Proof. split; reflexivity. Qed.

Section Properties.

Variable int : string -> option Z.

Context {store : EntityStore}.

(** ** Authorization of a single entity *)

Lemma pk_eqb_eq (x : option Z) (a : Z) : pk_eqb x (Some a) = true <-> x = Some a.
Proof.
  destruct x as [x|]; simpl; [|split; discriminate].
  rewrite Z.eqb_eq. split; congruence.
Qed.

Lemma other_tenant_decision (organization : option Organization) (owner : Organization) (a : Z) :
  org_id owner = Some a ->
  other_tenant organization owner
  = match organization with
    | Some B => negb (pk_eqb (org_id B) (Some a))
    | None => false
    end.
Proof.
  intros Ha. destruct organization as [B|]; [|reflexivity].
  unfold other_tenant, Organization_eqb. rewrite Ha.
  destruct (org_id B); simpl; [|reflexivity]. now rewrite Z.eqb_sym.
Qed.

Ltac decide_scope Ha :=
  intros info; rewrite (other_tenant_decision _ _ _ Ha);
  repeat split;
  [ intros B -> HB; destruct (pk_eqb (org_id B) _) eqn:E;
    [ now apply pk_eqb_eq in E | reflexivity ]
  | intros A -> HA; apply pk_eqb_eq in HA; now rewrite HA
  | now intros -> ].

Lemma resolve_project_decision (db : DB) (P : Project) (id : string) (a : Z) :
  NoDup (List.map project_id (db_projects db)) ->
  In P (db_projects db) ->
  int id = Some (project_id P) ->
  org_id (project_organization P) = Some a ->
  scope_decision (fun info => resolve_project int db info id) "Access denied to this project" P a.
Proof.
  intros Hpk Hin Hid Ha. unfold resolve_project, Project_objects_get, prep_id. rewrite Hid. simpl.
  rewrite (objects_get_pk project_id) by assumption. simpl.
  decide_scope Ha.
Qed.

Lemma resolve_task_decision (db : DB) (T : Task) (id : string) (a : Z) :
  NoDup (List.map task_id (db_tasks db)) ->
  In T (db_tasks db) ->
  int id = Some (task_id T) ->
  org_id (Task_organization T) = Some a ->
  scope_decision (fun info => resolve_task int db info id) "Access denied to this task" T a.
Proof.
  intros Hpk Hin Hid Ha. unfold resolve_task, Task_objects_get, prep_id. rewrite Hid. simpl.
  rewrite (objects_get_pk task_id) by assumption. simpl.
  unfold Task_organization in Ha.
  decide_scope Ha.
Qed.

Lemma resolve_task_comment_decision (db : DB) (C : TaskComment) (id : string) (a : Z) :
  NoDup (List.map comment_id (db_task_comments db)) ->
  In C (db_task_comments db) ->
  int id = Some (comment_id C) ->
  org_id (TaskComment_organization C) = Some a ->
  scope_decision (fun info => resolve_task_comment int db info id) "Access denied to this comment" C a.
Proof.
  intros Hpk Hin Hid Ha. unfold resolve_task_comment, TaskComment_objects_get, prep_id. rewrite Hid. simpl.
  rewrite (objects_get_pk comment_id) by assumption. simpl.
  unfold TaskComment_organization in Ha.
  decide_scope Ha.
Qed.

(** C2.  In a store that keeps to its constraints, let [a] be the primary
    key of an organization A.  For every project, task and comment whose
    ownership chain ends in A (the project's organization, the organization
    of the task's project, the organization of the project of the comment's
    task), the resolver of the entity raises [PermissionDenied] under any
    context tenant B other than A, returns the entity under the tenant A, and
    returns it when the context has no tenant. *)
Theorem authorize_by_tenant (db : DB) (a : Z) :
  constraints db ->
  (forall P id, In P (db_projects db) -> int id = Some (project_id P) ->
     org_id (project_organization P) = Some a ->
     scope_decision (fun info => resolve_project int db info id)
       "Access denied to this project" P a)
  /\ (forall T id, In T (db_tasks db) -> int id = Some (task_id T) ->
        org_id (Task_organization T) = Some a ->
        scope_decision (fun info => resolve_task int db info id)
          "Access denied to this task" T a)
  /\ (forall C id, In C (db_task_comments db) -> int id = Some (comment_id C) ->
        org_id (TaskComment_organization C) = Some a ->
        scope_decision (fun info => resolve_task_comment int db info id)
          "Access denied to this comment" C a).
Proof.
  intros [_ _ _ Hp Ht Hc]. split; [|split].
  - intros P id. now apply resolve_project_decision.
  - intros T id. now apply resolve_task_decision.
  - intros C id. now apply resolve_task_comment_decision.
Qed.

(** ** The Tenant Resolver *)

Lemma NoDup_map_eq {A K} (f : A -> K) (l : list A) (x y : A) :
  NoDup (List.map f l) -> In x l -> In y l -> f x = f y -> x = y.
Proof.
  induction l as [|a l IH]; intros Hnodup Hx Hy Hf; [destruct Hx|].
  simpl in Hnodup. inversion Hnodup as [|k ks Hfresh Hrest]; subst.
  assert (Hmap : forall z, In z l -> In (f z) (List.map f l))
    by (intros z Hz; now apply in_map).
  destruct Hx as [->|Hx], Hy as [->|Hy]; auto.
  - exfalso. apply Hfresh, list_elem_of_In. rewrite Hf. now apply Hmap.
  - exfalso. apply Hfresh, list_elem_of_In. rewrite <- Hf. now apply Hmap.
Qed.

Lemma inactive_slug_misses (db : DB) (O : Organization) (s : string) :
  constraints db -> In O (db_organizations db) -> org_is_active O = false ->
  org_slug O = Some s ->
  forall o, In o (db_organizations db) -> by_slug s o = false.
Proof.
  intros Hdb HO Hinactive Hslug o Ho. unfold by_slug.
  destruct (org_slug o) as [s'|] eqn:Hs'; [|reflexivity].
  destruct (String.eqb s' s) eqn:E; [|reflexivity]. apply String.eqb_eq in E. subst s'.
  assert (o = O) as ->.
  { apply (NoDup_map_eq org_slug (db_organizations db)); auto.
    - apply Hdb.
    - congruence. }
  now rewrite Hinactive.
Qed.

Lemma inactive_id_misses (db : DB) (O : Organization) (n : Z) :
  constraints db -> In O (db_organizations db) -> org_is_active O = false ->
  org_id O = Some n ->
  forall o, In o (db_organizations db) -> by_id n o = false.
Proof.
  intros Hdb HO Hinactive Hid o Ho. unfold by_id.
  destruct (pk_eqb (org_id o) (Some n)) eqn:E; [|reflexivity]. apply pk_eqb_eq in E.
  assert (o = O) as ->.
  { apply (NoDup_map_eq org_id (db_organizations db)); auto.
    - apply Hdb.
    - congruence. }
  now rewrite Hinactive.
Qed.

(** A lookup that misses leaves the request without tenant, and raises
    nothing. *)
Lemma process_request_miss (db : DB) (request : HttpRequest) (s i : option string) :
  read_identifiers request = (s, i) ->
  lookup_misses int db s i ->
  OrganizationMiddleware_process_request int db request = Return (set_organization request None).
Proof.
  intros Hread Hmiss. unfold OrganizationMiddleware_process_request. rewrite Hread.
  unfold lookup_organization, lookup_misses in *.
  destruct (truthy_str s).
  - now rewrite objects_get_missing.
  - destruct (truthy_str i); [|reflexivity].
    destruct Hmiss as (n & Hn & Hmiss). unfold prep_id. rewrite Hn. simpl.
    now rewrite objects_get_missing.
Qed.

(** An identifier that is no number is not a miss: the [ValueError] of the
    query leaves [process_request]. *)
Lemma process_request_malformed_id (db : DB) (request : HttpRequest) (s : option string)
    (i : string) :
  read_identifiers request = (s, Some i) ->
  truthy_str s = false -> i <> "" -> int i = None ->
  OrganizationMiddleware_process_request int db request
  = Raise (ValueError ("Field 'id' expected a number but got '" +:+ i +:+ "'.")).
Proof.
  intros Hread Hs Hi Hint. unfold OrganizationMiddleware_process_request. rewrite Hread.
  unfold lookup_organization. rewrite Hs.
  assert (truthy_str (Some i) = true) as ->.
  { simpl. apply negb_true_iff, String.eqb_neq, Hi. }
  unfold prep_id. simpl. now rewrite Hint.
Qed.

(** Whatever the request and the store, a tenant that the resolver attaches
    to the request is an active organization of the store. *)
Lemma resolved_tenant_is_active (db : DB) (request request' : HttpRequest) (o : Organization) :
  OrganizationMiddleware_process_request int db request = Return request' ->
  getattr_organization request' = Some o ->
  In o (db_organizations db) /\ org_is_active o = true.
Proof.
  unfold OrganizationMiddleware_process_request.
  destruct (read_identifiers request) as [s i].
  assert (Hfound : forall (lookup : Organization -> bool) r,
            objects_get OrganizationModel (db_organizations db) lookup = Return r ->
            (forall x, lookup x = true -> org_is_active x = true) ->
            In r (db_organizations db) /\ org_is_active r = true).
  { intros lookup r Hget Hactive. apply objects_get_Return in Hget. destruct Hget. auto. }
  assert (Hslug : forall v x, by_slug v x = true -> org_is_active x = true).
  { intros v x. unfold by_slug. destruct (org_slug x); [|discriminate].
    now intros [_ H]%andb_true_iff. }
  assert (Hid : forall v x, by_id v x = true -> org_is_active x = true).
  { intros v x. unfold by_id. now intros [_ H]%andb_true_iff. }
  unfold lookup_organization.
  destruct (truthy_str s).
  - destruct (objects_get _ _ _) as [r|e] eqn:Hget; simpl.
    + intros H Ho. inversion H; subst. inversion Ho; subst. eauto.
    + destruct (is_DoesNotExist OrganizationModel e); intros H Ho; inversion H; subst.
      discriminate.
  - destruct (truthy_str i); simpl.
    + unfold prep_id. destruct (int (default "" i)) as [n|]; simpl; [|discriminate].
      destruct (objects_get _ _ _) as [r|e] eqn:Hget; simpl.
      * intros H Ho. inversion H; subst. inversion Ho; subst. eauto.
      * destruct (is_DoesNotExist OrganizationModel e); intros H Ho; inversion H; subst.
        discriminate.
    + intros H Ho. inversion H; subst. discriminate.
Qed.

(** Where the identifiers come from: a non-empty slug header is the slug of
    the request whatever else it carries, and the query parameters count when
    both headers are missing or empty. *)
Lemma read_identifiers_header_slug (request : HttpRequest) (s : string) :
  req_META request !! "HTTP_X_ORGANIZATION_SLUG" = Some s -> s <> "" ->
  read_identifiers request = (Some s, req_META request !! "HTTP_X_ORGANIZATION_ID").
Proof.
  intros Hs Hne. unfold read_identifiers. rewrite Hs. simpl.
  apply String.eqb_neq in Hne. now rewrite Hne.
Qed.

Lemma read_identifiers_query (request : HttpRequest) :
  truthy_str (req_META request !! "HTTP_X_ORGANIZATION_SLUG") = false ->
  truthy_str (req_META request !! "HTTP_X_ORGANIZATION_ID") = false ->
  read_identifiers request
  = (req_GET request !! "organization_slug", req_GET request !! "organization_id").
Proof. intros Hs Hi. unfold read_identifiers. now rewrite Hs, Hi. Qed.

(** In a store that keeps to its constraints, let O be an organization
    with [is_active=false].  A request whose tenant slug is the slug of O, and
    a request whose tenant id is the id of O, leave the Tenant Resolver
    without tenant; and so does every request whose lookup misses, without
    anything being raised.  (The slug of a request counts when it is not
    empty; an empty one counts as no slug.) *)
Theorem inactive_organization_not_resolved (db : DB) (O : Organization) (request : HttpRequest) :
  constraints db ->
  In O (db_organizations db) ->
  org_is_active O = false ->
  (forall s i, org_slug O = Some s -> read_identifiers request = (Some s, i) ->
     s <> "" \/ truthy_str i = false ->
     OrganizationMiddleware_process_request int db request
     = Return (set_organization request None))
  /\ (forall s i n, read_identifiers request = (s, Some i) -> truthy_str s = false ->
        int i = Some n -> org_id O = Some n ->
        OrganizationMiddleware_process_request int db request
        = Return (set_organization request None))
  /\ (forall s i, read_identifiers request = (s, i) -> lookup_misses int db s i ->
        OrganizationMiddleware_process_request int db request
        = Return (set_organization request None)).
Proof.
  intros Hdb HO Hinactive. split; [|split].
  - intros s i Hslug Hread Hcase. apply (process_request_miss _ _ _ _ Hread).
    unfold lookup_misses. simpl.
    destruct (String.eqb s "") eqn:E; simpl.
    + apply String.eqb_eq in E. destruct Hcase as [Hne|Hi]; [contradiction|]. now rewrite Hi.
    + now apply (inactive_slug_misses db O).
  - intros s i n Hread Hs Hint Hid. apply (process_request_miss _ _ _ _ Hread).
    unfold lookup_misses. rewrite Hs.
    destruct (truthy_str (Some i)); [|exact I].
    exists n. split; [exact Hint|]. now apply (inactive_id_misses db O).
  - intros s i. apply process_request_miss.
Qed.

(** C3, as the code has it: the miss that is not swallowed.  A request
    without slug header whose id header is not a number names no
    organization, and the resolver does not leave the request without
    tenant: the [ValueError] of the query is no [DoesNotExist], passes the
    handler and leaves [process_request].  (The lookups by slug, and by an id
    that is a number, do give no tenant on a miss:
    [inactive_organization_not_resolved].) *)
Theorem malformed_id_is_raised (db : DB) (request : HttpRequest) (i : string) :
  truthy_str (req_META request !! "HTTP_X_ORGANIZATION_SLUG") = false ->
  req_META request !! "HTTP_X_ORGANIZATION_ID" = Some i ->
  i <> "" ->
  int i = None ->
  OrganizationMiddleware_process_request int db request
  = Raise (ValueError ("Field 'id' expected a number but got '" +:+ i +:+ "'."))
  /\ OrganizationMiddleware_process_request int db request
     <> Return (set_organization request None).
Proof.
  intros Hs Hi Hne Hint.
  assert (H : OrganizationMiddleware_process_request int db request
              = Raise (ValueError ("Field 'id' expected a number but got '" +:+ i +:+ "'."))).
  { apply (process_request_malformed_id db request
             (req_META request !! "HTTP_X_ORGANIZATION_SLUG") i); auto.
    unfold read_identifiers. rewrite Hs, Hi.
    assert (truthy_str (Some i) = true) as ->; [|reflexivity].
    simpl. apply negb_true_iff, String.eqb_neq, Hne. }
  split; [exact H|]. rewrite H. discriminate.
Qed.


(** ** The Request Gate *)

(** C5.  A request whose path is under no exempt prefix, is under the API
    prefix, and has no resolved tenant gets the response with status 400
    whose body has [error] and [message] as below, and the view is not
    invoked: the trace of invocations is as it was.  A request under an
    exempt prefix, or outside the API prefix, passes to the view. *)
Theorem request_gate (request : HttpRequest) (view : HttpRequest -> HttpResponse) (trace : Trace) :
  let exempt :=
    startswith (req_path request) "/admin/" = true
    \/ startswith (req_path request) "/graphql/" = true
    \/ startswith (req_path request) "/api/organizations/" = true in
  let rejection :=
    {| resp_status := 400;
       resp_data :=
         [("error", "Organization context required");
          ("message", "Please provide organization via X-Organization-Slug header or organization_slug parameter")] |} in
  (~ exempt -> startswith (req_path request) "/api/" = true ->
   getattr_organization request = None ->
   RequireOrganizationMiddleware_process_request request = Some rejection
   /\ MiddlewareMixin_call RequireOrganizationMiddleware_process_request (invoke view) request trace
      = (rejection, trace))
  /\ (exempt \/ startswith (req_path request) "/api/" = false ->
      RequireOrganizationMiddleware_process_request request = None
      /\ MiddlewareMixin_call RequireOrganizationMiddleware_process_request (invoke view) request trace
         = (view request, (trace ++ [request])%list)).
Proof.
  intros exempt rejection. subst exempt.
  unfold MiddlewareMixin_call, RequireOrganizationMiddleware_process_request, EXEMPT_PATHS.
  cbn [existsb].
  destruct (startswith (req_path request) "/admin/"),
           (startswith (req_path request) "/graphql/"),
           (startswith (req_path request) "/api/organizations/"),
           (startswith (req_path request) "/api/"); cbn [orb negb];
    (split; [ intros Hne Hapi Hnone | intros Hbypass ]);
    try (exfalso; apply Hne; tauto);
    try discriminate;
    try (split; reflexivity);
    try (rewrite Hnone; rewrite orb_true_r; split; reflexivity);
    try (exfalso; destruct Hbypass as [[H|[H|H]]|H]; discriminate).
Qed.

(** ** The collection queries *)

(** C10.  [resolve_projects] and [resolve_tasks] return every row of the
    store, of whatever organization, and the same rows under any two
    contexts. *)
Theorem collection_queries_ignore_tenant (db : DB) (info1 info2 : HttpRequest) :
  resolve_projects db info1 = db_projects db
  /\ resolve_tasks db info1 = db_tasks db
  /\ resolve_projects db info1 = resolve_projects db info2
  /\ resolve_tasks db info1 = resolve_tasks db info2.
Proof. repeat split. Qed.

(** Under the tenant Acme the two queries return the rows of Beta too. *)
Example collection_queries_example :
  In Example.billing (resolve_projects Example.db (Example.info (Some Example.acme)))
  /\ In Example.invoices (resolve_tasks Example.db (Example.info (Some Example.acme)))
  /\ Organization_eqb (project_organization Example.billing) Example.acme = false.
Proof. unfold resolve_projects, resolve_tasks. simpl. tauto. Qed.

(** ** Completion rate *)

Lemma int_truediv_returns (a b : Z) :
  b <> 0 -> exists q, float.int_truediv a b = Return q.
Proof.
  intros Hb. unfold float.int_truediv.
  destruct (b =? 0) eqn:E; [apply Z.eqb_eq in E; contradiction|].
  destruct (a =? 0); eauto.
Qed.

Lemma half_even_nearest (num den : Z) :
  0 <= num -> 0 < den ->
  0 <= float.half_even num den
  /\ 2 * Z.abs (num - float.half_even num den * den) <= den.
Proof.
  intros Hnum Hden. unfold float.half_even.
  pose proof (Z.div_mod num den ltac:(lia)) as Hdiv.
  pose proof (Z.mod_pos_bound num den Hden) as Hmod.
  pose proof (Z.div_pos num den Hnum Hden) as Hq.
  remember (num / den) as q. remember (num mod den) as r.
  assert (Hlow : num - q * den = r) by lia.
  assert (Hhigh : num - (q + 1) * den = r - den) by lia.
  destruct (2 * r ?= den) eqn:E.
  - apply Z.compare_eq in E. destruct (Z.even q); (split; [lia|]).
    + rewrite Hlow, Z.abs_eq; lia.
    + rewrite Hhigh, Z.abs_neq; lia.
  - assert (2 * r < den) by (apply Z.compare_lt_iff; exact E).
    split; [lia|]. rewrite Hlow, Z.abs_eq; lia.
  - assert (den < 2 * r) by (apply Z.compare_gt_iff; exact E).
    split; [lia|]. rewrite Hhigh, Z.abs_neq; lia.
Qed.

(** [round(x, 2)] is the binary64 value nearest to [n / 100] for an integer
    [n] at distance at most one half from [100 x]: with [x = m * 2 ^ e],
    [100 x] is the fraction of [m * 2 ^ max 0 e * 100] by [2 ^ max 0 (- e)]. *)
Lemma round2_hundredths (s : bool) (m : positive) (e : Z) :
  exists n,
    0 <= n
    /\ 2 * Z.abs (Z.pos m * 2 ^ Z.max 0 e * 100 - n * 2 ^ Z.max 0 (- e)) <= 2 ^ Z.max 0 (- e)
    /\ float.round2 (S754_finite s m e)
       = if n =? 0 then S754_zero s else float.nearest s n 100.
Proof.
  unfold float.round2. destruct (0 <=? e) eqn:E.
  - apply Z.leb_le in E. exists (Z.pos m * 2 ^ e * 100).
    rewrite (Z.max_r 0 e) by lia. rewrite (Z.max_l 0 (- e)) by lia.
    pose proof (Z.pow_pos_nonneg 2 e ltac:(lia) E).
    change (2 ^ 0) with 1. repeat split; nia.
  - apply Z.leb_gt in E. exists (float.half_even (Z.pos m * 100) (2 ^ (- e))).
    rewrite (Z.max_l 0 e) by lia. rewrite (Z.max_r 0 (- e)) by lia.
    change (2 ^ 0) with 1. rewrite Z.mul_1_r.
    pose proof (Z.pow_pos_nonneg 2 (- e) ltac:(lia) ltac:(lia)) as Hden.
    destruct (half_even_nearest (Z.pos m * 100) (2 ^ (- e)) ltac:(lia) Hden) as [H0 H1].
    repeat split; assumption.
Qed.

(** C8.  The completion rate of a project without tasks is the integer 0.
    With tasks, nothing is raised and the rate is the quotient of the
    completed tasks by all tasks, times 100, rounded to two decimals, in
    binary64 arithmetic: the rate is the binary64 value nearest to [n / 100]
    for an integer [n] at distance at most one half from 100 times the
    product.  With four tasks of which one is done it is 25.0, which is
    7036874417766400 * 2 ^ -48; with three tasks it is 33.33 for one done and
    66.67 for two, the binary64 values 4690780486883082 * 2 ^ -47 and
    4691484174324859 * 2 ^ -46. *)
Theorem completion_rate_value (db : DB) (self : Project) :
  (Project_task_count db self = 0 -> Project_completion_rate db self = Return (Int 0))
  /\ (Project_task_count db self <> 0 ->
      exists q,
        float.int_truediv (Project_completed_tasks db self) (Project_task_count db self) = Return q
        /\ Project_completion_rate db self
           = Return (Float (float.round2 (float.mul_int q 100)))
        /\ (forall s m e, float.mul_int q 100 = S754_finite s m e ->
              exists n,
                0 <= n
                /\ 2 * Z.abs (Z.pos m * 2 ^ Z.max 0 e * 100 - n * 2 ^ Z.max 0 (- e))
                   <= 2 ^ Z.max 0 (- e)
                /\ Project_completion_rate db self
                   = Return (Float (if n =? 0 then S754_zero s else float.nearest s n 100))))
  /\ (Project_task_count db self = 4 -> Project_completed_tasks db self = 1 ->
      Project_completion_rate db self
      = Return (Float (S754_finite false 7036874417766400 (-48))))
  /\ (Project_task_count db self = 3 -> Project_completed_tasks db self = 1 ->
      Project_completion_rate db self
      = Return (Float (S754_finite false 4690780486883082 (-47))))
  /\ (Project_task_count db self = 3 -> Project_completed_tasks db self = 2 ->
      Project_completion_rate db self
      = Return (Float (S754_finite false 4691484174324859 (-46)))).
Proof.
  unfold Project_completion_rate. refine (conj _ (conj _ (conj _ (conj _ _)))).
  - now intros ->.
  - intros Hne. destruct (int_truediv_returns (Project_completed_tasks db self) _ Hne) as [q Hq].
    exists q. split; [exact Hq|].
    destruct (Project_task_count db self =? 0) eqn:E; [apply Z.eqb_eq in E; contradiction|].
    rewrite Hq. split; [reflexivity|].
    intros s m e Hp. destruct (round2_hundredths s m e) as (n & H0 & H1 & H2).
    exists n. split; [exact H0|]. split; [exact H1|].
    simpl. now rewrite Hp, H2.
  - intros -> ->. vm_compute. reflexivity.
  - intros -> ->. vm_compute. reflexivity.
  - intros -> ->. vm_compute. reflexivity.
Qed.

(** Some rates, as Python prints them: 33.33, 66.67, 3.12, 100.0. *)
Example completion_rates :
  let rate c t := float.round2 (float.mul_int (float.nearest false c t) 100) in
  rate 1 3 = float.nearest false 3333 100
  /\ rate 2 3 = float.nearest false 6667 100
  /\ rate 1 32 = float.nearest false 312 100
  /\ rate 7 7 = float.of_int 100.
Proof. vm_compute. repeat split. Qed.

(** ** The slug of a new organization *)

Lemma Organization_before_save_slug (self : Organization) :
  org_slug (Organization_before_save self)
  = match org_slug self with
    | Some s => if String.eqb s "" then Some (slugify (org_name self)) else Some s
    | None => Some (slugify (org_name self))
    end.
Proof.
  unfold Organization_before_save.
  destruct (org_slug self) as [s|] eqn:Hs; simpl; [|reflexivity].
  destruct (String.eqb s ""); simpl; [reflexivity|exact Hs].
Qed.

Lemma CreateOrganizationMutation_slug (db : DB) (info : HttpRequest)
    (name contact_email : string) (description slug : option string)
    (payload : Payload Organization) (db' : DB) :
  (forall db o o' db', Model_save_Organization db o = Return (o', db') -> org_slug o' = org_slug o) ->
  CreateOrganizationMutation_mutate db info name contact_email description slug = (payload, db') ->
  success payload = true ->
  exists o, payload_object payload = Some o
            /\ org_slug o
               = org_slug (Organization_before_save
                             {| org_id := None; org_name := name; org_slug := slug;
                                org_contact_email := contact_email;
                                org_description := or_str description "";
                                org_is_active := true |}).
Proof.
  intros Hstore. unfold CreateOrganizationMutation_mutate, Organization_objects_create, Organization_save.
  destruct (Model_save_Organization db _) as [[o db'']|e] eqn:Hsave; intros H Hs;
    inversion H; subst; [|discriminate].
  exists o. split; [reflexivity|]. now apply Hstore in Hsave.
Qed.

(** C9.  What [Organization.objects.create] hands to the store has the slug
    derived from the name when no slug is given, ["my-org"] for the name
    ["My Org"], and has the given slug when one is given.  So a successful
    [CreateOrganizationMutation], on a store that saves the slug it is
    handed, returns an organization with that slug.  The derived slug is
    stated for names within ASCII, where [slugify] is the function of
    Django; the name ["My Org"] and the given slug need no such condition. *)
Theorem slug_on_create (db : DB) (info : HttpRequest) (contact_email : string)
    (description : option string) :
  (forall db o o' db', Model_save_Organization db o = Return (o', db') -> org_slug o' = org_slug o) ->
  (forall name, ascii_only name ->
     Organization_objects_create db name contact_email (or_str description "") None
     = Model_save_Organization db
         {| org_id := None; org_name := name; org_slug := Some (slugify name);
            org_contact_email := contact_email; org_description := or_str description "";
            org_is_active := true |})
  /\ (forall name slug, slug <> "" ->
        Organization_objects_create db name contact_email (or_str description "") (Some slug)
        = Model_save_Organization db
            {| org_id := None; org_name := name; org_slug := Some slug;
               org_contact_email := contact_email; org_description := or_str description "";
               org_is_active := true |})
  /\ (forall payload db',
        CreateOrganizationMutation_mutate db info "My Org" contact_email description None
        = (payload, db') ->
        success payload = true ->
        exists o, payload_object payload = Some o /\ org_slug o = Some "my-org")
  /\ (forall name payload db', ascii_only name ->
        CreateOrganizationMutation_mutate db info name contact_email description None
        = (payload, db') ->
        success payload = true ->
        exists o, payload_object payload = Some o /\ org_slug o = Some (slugify name))
  /\ (forall name slug payload db', slug <> "" ->
        CreateOrganizationMutation_mutate db info name contact_email description (Some slug)
        = (payload, db') ->
        success payload = true ->
        exists o, payload_object payload = Some o /\ org_slug o = Some slug).
Proof.
  intros Hstore. repeat split.
  - intros name slug Hne. unfold Organization_objects_create, Organization_save.
    f_equal. unfold Organization_before_save. simpl.
    apply String.eqb_neq in Hne. now rewrite Hne.
  - intros payload db' H Hs.
    destruct (CreateOrganizationMutation_slug _ _ _ _ _ _ _ _ Hstore H Hs) as (o & Ho & Hslug).
    exists o. split; [exact Ho|]. now rewrite Hslug, Organization_before_save_slug.
  - intros name payload db' _ H Hs.
    destruct (CreateOrganizationMutation_slug _ _ _ _ _ _ _ _ Hstore H Hs) as (o & Ho & Hslug).
    exists o. split; [exact Ho|]. now rewrite Hslug, Organization_before_save_slug.
  - intros name slug payload db' Hne H Hs.
    destruct (CreateOrganizationMutation_slug _ _ _ _ _ _ _ _ Hstore H Hs) as (o & Ho & Hslug).
    exists o. split; [exact Ho|]. rewrite Hslug, Organization_before_save_slug. simpl.
    apply String.eqb_neq in Hne. now rewrite Hne.
Qed.

(** ** Exceptions at the mutation boundary *)

Lemma handle_converts {A X} (m : ModelClass) (not_found : string) (db : DB)
    (lookup : Result X) (write : X -> Result (A * DB)) :
  converts m not_found db lookup write (handle m not_found db (lookup ≫= write)).
Proof.
  unfold converts, handle. repeat split.
  - now intros e ->.
  - intros x e -> Hw. simpl. now rewrite Hw.
  - intros x y db' -> Hw. simpl. now rewrite Hw.
Qed.

Lemma rendered_miss (m : ModelClass) (not_found msg : string) :
  rendered m not_found (DoesNotExist m msg) = [not_found].
Proof. unfold rendered. simpl. now destruct m. Qed.

Lemma rendered_other (m : ModelClass) (not_found : string) (e : Exception) :
  is_DoesNotExist m e = false -> rendered m not_found e = [str e].
Proof. unfold rendered. now intros ->. Qed.

Lemma objects_get_pk_missing {A} (pk : A -> Z) (m : ModelClass) (rows : list A) (n : Z) :
  (forall x, In x rows -> pk x <> n) ->
  objects_get m rows (pk_is pk n)
  = Raise (DoesNotExist m (object_name m +:+ " matching query does not exist.")).
Proof.
  intros Hnone. apply objects_get_missing. intros y Hy.
  apply Z.eqb_neq. now apply Hnone.
Qed.

Lemma Organization_objects_get_missing (db : DB) (id : string) (n : Z) :
  int id = Some n ->
  (forall o, In o (db_organizations db) -> org_id o <> Some n) ->
  Organization_objects_get int db id
  = Raise (DoesNotExist OrganizationModel "Organization matching query does not exist.").
Proof.
  intros Hid Hnone. unfold Organization_objects_get, prep_id. rewrite Hid. simpl.
  apply objects_get_missing. intros o Ho. unfold org_pk_is.
  destruct (pk_eqb (org_id o) (Some n)) eqn:E; [|reflexivity].
  apply pk_eqb_eq in E. now apply Hnone in Ho.
Qed.

Lemma Project_objects_get_missing (db : DB) (id : string) (n : Z) :
  int id = Some n ->
  (forall p, In p (db_projects db) -> project_id p <> n) ->
  Project_objects_get int db id
  = Raise (DoesNotExist ProjectModel "Project matching query does not exist.").
Proof.
  intros Hid Hnone. unfold Project_objects_get, prep_id. rewrite Hid. simpl.
  now apply objects_get_pk_missing.
Qed.

Lemma Task_objects_get_missing (db : DB) (id : string) (n : Z) :
  int id = Some n ->
  (forall t, In t (db_tasks db) -> task_id t <> n) ->
  Task_objects_get int db id
  = Raise (DoesNotExist TaskModel "Task matching query does not exist.").
Proof.
  intros Hid Hnone. unfold Task_objects_get, prep_id. rewrite Hid. simpl.
  now apply objects_get_pk_missing.
Qed.

(** C7.  Every mutation turns what its lookup or its write raises into a
    payload with [success] false, no object, and the exception rendered in
    [errors], and leaves the store as it was: [DoesNotExist] of the model
    looked up is rendered as the fixed message, any other exception [e] as
    [str(e)].  An id that names no row gives ["Organization not found"],
    ["Project not found"] or ["Task not found"].  The payloads are written
    out field by field. *)
Theorem mutation_errors (db : DB) (info : HttpRequest) :
  (forall name contact_email description slug e,
     Organization_objects_create db name contact_email (or_str description "") slug = Raise e ->
     CreateOrganizationMutation_mutate db info name contact_email description slug
     = ({| payload_object := None; success := false; errors := [str e] |}, db))
  /\ (forall id kwargs,
        converts OrganizationModel "Organization not found" db
          (Organization_objects_get int db id)
          (fun O => Organization_save db (Organization_setattrs kwargs O))
          (UpdateOrganizationMutation_mutate int db info id kwargs))
  /\ (forall organization_id name description status due_date,
        converts OrganizationModel "Organization not found" db
          (Organization_objects_get int db organization_id)
          (fun O => Project_objects_create db O name (or_str description "")
                      (or_str status "ACTIVE") due_date)
          (CreateProjectMutation_mutate int db info organization_id name description status due_date))
  /\ (forall id kwargs,
        converts ProjectModel "Project not found" db
          (Project_objects_get int db id)
          (fun P => db' ← Model_save_Project db (Project_setattrs kwargs P);
                    mret (Project_setattrs kwargs P, db'))
          (UpdateProjectMutation_mutate int db info id kwargs))
  /\ (forall project_id title kwargs,
        converts ProjectModel "Project not found" db
          (Project_objects_get int db project_id)
          (fun P => Task_objects_create db P title
                      (kwargs_get (ct_description kwargs) (Some ""))
                      (kwargs_get (ct_status kwargs) (Some "TODO"))
                      (kwargs_get (ct_priority kwargs) (Some "MEDIUM"))
                      (kwargs_get (ct_assignee_email kwargs) (Some ""))
                      (kwargs_get (ct_due_date kwargs) None))
          (CreateTaskMutation_mutate int db info project_id title kwargs))
  /\ (forall id kwargs,
        converts TaskModel "Task not found" db
          (Task_objects_get int db id)
          (fun T => db' ← Model_save_Task db (Task_setattrs kwargs T);
                    mret (Task_setattrs kwargs T, db'))
          (UpdateTaskMutation_mutate int db info id kwargs))
  /\ (forall task_id content author_email,
        converts TaskModel "Task not found" db
          (Task_objects_get int db task_id)
          (fun T => TaskComment_objects_create db T content author_email)
          (AddTaskCommentMutation_mutate int db info task_id content author_email))
  /\ (forall id n, int id = Some n ->
        ((forall o, In o (db_organizations db) -> org_id o <> Some n) ->
         (forall kwargs,
            UpdateOrganizationMutation_mutate int db info id kwargs
            = ({| payload_object := None; success := false;
                  errors := ["Organization not found"] |}, db))
         /\ (forall name description status due_date,
               CreateProjectMutation_mutate int db info id name description status due_date
               = ({| payload_object := None; success := false;
                  errors := ["Organization not found"] |}, db)))
        /\ ((forall p, In p (db_projects db) -> project_id p <> n) ->
            (forall kwargs,
               UpdateProjectMutation_mutate int db info id kwargs
               = ({| payload_object := None; success := false;
                  errors := ["Project not found"] |}, db))
            /\ (forall title kwargs,
                  CreateTaskMutation_mutate int db info id title kwargs
                  = ({| payload_object := None; success := false;
                  errors := ["Project not found"] |}, db)))
        /\ ((forall t, In t (db_tasks db) -> task_id t <> n) ->
            (forall kwargs,
               UpdateTaskMutation_mutate int db info id kwargs
               = ({| payload_object := None; success := false;
                  errors := ["Task not found"] |}, db))
            /\ (forall content author_email,
                  AddTaskCommentMutation_mutate int db info id content author_email
                  = ({| payload_object := None; success := false;
                  errors := ["Task not found"] |}, db)))).
Proof.
  split; [|repeat (split; [intros; apply handle_converts|])].
  - intros name contact_email description slug e He.
    unfold CreateOrganizationMutation_mutate. now rewrite He.
  - intros id n Hid. split; [|split]; intros Hnone.
    + pose proof (Organization_objects_get_missing db id n Hid Hnone) as Hget.
      split; intros.
      * unfold UpdateOrganizationMutation_mutate. now rewrite Hget.
      * unfold CreateProjectMutation_mutate. now rewrite Hget.
    + pose proof (Project_objects_get_missing db id n Hid Hnone) as Hget.
      split; intros.
      * unfold UpdateProjectMutation_mutate. now rewrite Hget.
      * unfold CreateTaskMutation_mutate. now rewrite Hget.
    + pose proof (Task_objects_get_missing db id n Hid Hnone) as Hget.
      split; intros.
      * unfold UpdateTaskMutation_mutate. now rewrite Hget.
      * unfold AddTaskCommentMutation_mutate. now rewrite Hget.
Qed.

(** ** The check of an organization, and the mutations *)

(** C4, as the code has it.  [validate_organization_access] raises
    [PermissionDenied] exactly for no organization and for an organization
    that is not active, and returns [True] otherwise.  The mutations that
    create a project or a task do not make this check: once the organization,
    or the project, of the given id is found, the creation is handed to the
    store, whatever the [is_active] flag and whatever the context tenant, and
    the outcome of the mutation is the outcome of the store. *)
Theorem validate_organization_access_exact :
  (forall organization,
     (exists msg, validate_organization_access organization = Raise (PermissionDenied msg))
     <-> (organization = None
          \/ exists o, organization = Some o /\ org_is_active o = false))
  /\ (forall o, org_is_active o = true -> validate_organization_access (Some o) = Return true)
  /\ (forall db info organization_id O name description status due_date,
        Organization_objects_get int db organization_id = Return O ->
        CreateProjectMutation_mutate int db info organization_id name description status due_date
        = match Project_objects_create db O name (or_str description "")
                  (or_str status "ACTIVE") due_date with
          | Return (project, db') => (succeeded project, db')
          | Raise e => (failed (rendered OrganizationModel "Organization not found" e), db)
          end)
  /\ (forall db info project_id P title kwargs,
        Project_objects_get int db project_id = Return P ->
        CreateTaskMutation_mutate int db info project_id title kwargs
        = match Task_objects_create db P title
                  (kwargs_get (ct_description kwargs) (Some ""))
                  (kwargs_get (ct_status kwargs) (Some "TODO"))
                  (kwargs_get (ct_priority kwargs) (Some "MEDIUM"))
                  (kwargs_get (ct_assignee_email kwargs) (Some ""))
                  (kwargs_get (ct_due_date kwargs) None) with
          | Return (task, db') => (succeeded task, db')
          | Raise e => (failed (rendered ProjectModel "Project not found" e), db)
          end).
Proof.
  split; [|split; [|split]].
  - intros [o|]; simpl.
    + destruct (org_is_active o) eqn:E; simpl; split.
      * intros [msg H]. discriminate.
      * intros [H|(o' & H & Ho')]; [discriminate|]. inversion H; subst. congruence.
      * intros _. right. now exists o.
      * intros _. now eexists.
    + split; [now left | intros _; now eexists].
  - intros o Ho. simpl. now rewrite Ho.
  - intros db info organization_id O name description status due_date Hget.
    unfold CreateProjectMutation_mutate, handle. now rewrite Hget.
  - intros db info project_id P title kwargs Hget.
    unfold CreateTaskMutation_mutate, handle. now rewrite Hget.
Qed.

End Properties.

(** * The statements, evaluated *)

Lemma Example_constraints : constraints Example.db.
Proof.
  split; simpl; compute_done.
Qed.

Lemma ListStore_saves_slug (db : DB) (o o' : Organization) (db' : DB) :
  ListStore.save_Organization db o = Return (o', db') -> org_slug o' = org_slug o.
Proof.
  unfold ListStore.save_Organization.
  destruct (org_slug o) as [s|] eqn:Hs; [|discriminate].
  destruct (org_id o) as [i|].
  - destruct (existsb _ _); [discriminate|]. intros H. inversion H; subst. exact Hs.
  - destruct (existsb _ _); [discriminate|]. intros H. inversion H; subst. reflexivity.
Qed.

(** C2 on the example store: the project Website, its task Design and the
    comment on that task belong to Acme. *)
Lemma authorize_by_tenant_witness :
  let resolve_project := resolve_project ListStore.int Example.db in
  let resolve_task := resolve_task ListStore.int Example.db in
  let resolve_task_comment := resolve_task_comment ListStore.int Example.db in
  (resolve_project (Example.info (Some Example.beta)) "1"
   = Raise (PermissionDenied "Access denied to this project")
   /\ resolve_project (Example.info (Some Example.acme)) "1" = Return (Some Example.website)
   /\ resolve_project (Example.info None) "1" = Return (Some Example.website))
  /\ (resolve_task (Example.info (Some Example.beta)) "1"
      = Raise (PermissionDenied "Access denied to this task")
      /\ resolve_task (Example.info (Some Example.acme)) "1" = Return (Some Example.design)
      /\ resolve_task (Example.info None) "1" = Return (Some Example.design))
  /\ (resolve_task_comment (Example.info (Some Example.beta)) "1"
      = Raise (PermissionDenied "Access denied to this comment")
      /\ resolve_task_comment (Example.info (Some Example.acme)) "1" = Return (Some Example.remark)
      /\ resolve_task_comment (Example.info None) "1" = Return (Some Example.remark)).
Proof.
  destruct (authorize_by_tenant ListStore.int Example.db 1 Example_constraints) as (Hp & Ht & Hc).
  assert (HP := Hp Example.website "1" ltac:(simpl; tauto) eq_refl eq_refl).
  assert (HT := Ht Example.design "1" ltac:(simpl; tauto) eq_refl eq_refl).
  assert (HC := Hc Example.remark "1" ltac:(simpl; tauto) eq_refl eq_refl).
  refine (conj (conj _ (conj _ _)) (conj (conj _ (conj _ _)) (conj _ (conj _ _)))).
  - apply (HP (Example.info (Some Example.beta))) with (B := Example.beta);
      [reflexivity | discriminate].
  - now apply (HP (Example.info (Some Example.acme))) with (A := Example.acme).
  - now apply (HP (Example.info None)).
  - apply (HT (Example.info (Some Example.beta))) with (B := Example.beta);
      [reflexivity | discriminate].
  - now apply (HT (Example.info (Some Example.acme))) with (A := Example.acme).
  - now apply (HT (Example.info None)).
  - apply (HC (Example.info (Some Example.beta))) with (B := Example.beta);
      [reflexivity | discriminate].
  - now apply (HC (Example.info (Some Example.acme))) with (A := Example.acme).
  - now apply (HC (Example.info None)).
Defined.

(** On the example store: the deactivated organization, named by its slug
    in the header and by its id in the query. *)
Lemma inactive_organization_not_resolved_witness :
  let by_slug := Example.request "/api/projects/" [("HTTP_X_ORGANIZATION_SLUG", "gone")] [] in
  let by_id := Example.request "/api/projects/" [] [("organization_id", "3")] in
  OrganizationMiddleware_process_request ListStore.int Example.db by_slug
  = Return (set_organization by_slug None)
  /\ OrganizationMiddleware_process_request ListStore.int Example.db by_id
     = Return (set_organization by_id None).
Proof.
  intros by_slug by_id. split.
  - destruct (inactive_organization_not_resolved ListStore.int Example.db Example.gone by_slug
                Example_constraints ltac:(simpl; tauto) eq_refl) as (H & _ & _).
    apply (H "gone" None); [reflexivity | reflexivity | left; discriminate].
  - destruct (inactive_organization_not_resolved ListStore.int Example.db Example.gone by_id
                Example_constraints ltac:(simpl; tauto) eq_refl) as (_ & H & _).
    apply (H None "3" 3); reflexivity.
Defined.

(** C3 on the example store: the header [X-Organization-ID: abc] and no
    slug.  The request is not answered with an empty tenant, the exception
    leaves the middleware. *)
Lemma malformed_id_is_raised_witness :
  let request := Example.request "/api/projects/" [("HTTP_X_ORGANIZATION_ID", "abc")] [] in
  OrganizationMiddleware_process_request ListStore.int Example.db request
  = Raise (ValueError "Field 'id' expected a number but got 'abc'.")
  /\ OrganizationMiddleware_process_request ListStore.int Example.db request
     <> Return (set_organization request None).
Proof.
  intros request.
  apply (malformed_id_is_raised ListStore.int Example.db request "abc");
    [reflexivity | reflexivity | discriminate | reflexivity].
Defined.

(** C5 on two requests without tenant: one for the projects of the API, one
    for the GraphQL endpoint. *)
Lemma request_gate_witness :
  let view := fun _ : HttpRequest => JsonResponse [("data", "...")] 200 in
  let protected := Example.request "/api/projects/" [] [] in
  let exempt := Example.request "/graphql/" [] [] in
  MiddlewareMixin_call RequireOrganizationMiddleware_process_request (invoke view) protected []
  = (JsonResponse
       [("error", "Organization context required");
        ("message", "Please provide organization via X-Organization-Slug header or organization_slug parameter")]
       400, [])
  /\ MiddlewareMixin_call RequireOrganizationMiddleware_process_request (invoke view) exempt []
     = (view exempt, [exempt]).
Proof.
  intros view protected exempt. split.
  - destruct (request_gate protected view []) as (H & _).
    apply H; [|reflexivity|reflexivity].
    intros [E|[E|E]]; discriminate.
  - destruct (request_gate exempt view []) as (_ & H).
    apply H. left. right. left. reflexivity.
Defined.

(** The scenario of the specification: the slug of a deactivated
    organization on a protected path is rejected by the gate. *)
Example inactive_tenant_is_rejected :
  let request :=
    Example.request "/api/projects/" [("HTTP_X_ORGANIZATION_SLUG", "gone")] [] in
  (request' ← OrganizationMiddleware_process_request ListStore.int Example.db request;
   mret (resp_status <$> RequireOrganizationMiddleware_process_request request'))
  = Return (Some 400).
Proof. reflexivity. Qed.

(** C8 on the example store: Website has four tasks, one of them done; Vault
    has none. *)
Lemma completion_rate_value_witness :
  Project_completion_rate Example.db Example.website
  = Return (Float (S754_finite false 7036874417766400 (-48)))
  /\ Project_completion_rate Example.db Example.vault = Return (Int 0)
  /\ Project_completion_rate Example2.sprint_db Example2.sprint
     = Return (Float (S754_finite false 4690780486883082 (-47)))
  /\ (exists n,
        0 <= n
        /\ 2 * Z.abs (4691249611844266 * 2 ^ 0 * 100 - n * 2 ^ 47) <= 2 ^ 47
        /\ Project_completion_rate Example2.sprint_db Example2.sprint
           = Return (Float (float.nearest false n 100))
        /\ n = 3333).
Proof.
  refine (conj _ (conj _ (conj _ _))).
  - destruct (completion_rate_value Example.db Example.website) as (_ & _ & H & _).
    apply H; reflexivity.
  - destruct (completion_rate_value Example.db Example.vault) as (H & _).
    apply H; reflexivity.
  - destruct (completion_rate_value Example2.sprint_db Example2.sprint) as (_ & _ & _ & H & _).
    apply H; reflexivity.
  - destruct (completion_rate_value Example2.sprint_db Example2.sprint) as (_ & H & _).
    destruct (H ltac:(discriminate)) as (q & Hq & _ & Hn).
    vm_compute in Hq. inversion Hq; subst q.
    destruct (Hn false 4691249611844266%positive (-47) eq_refl) as (n & H0 & H1 & H2).
    change (Z.max 0 (-47)) with 0 in H1. change (Z.max 0 (- -47)) with 47 in H1.
    assert (n = 3333) as ->.
    { change (2 ^ 0) with 1 in H1. change (2 ^ 47) with 140737488355328 in H1. lia. }
    exists 3333. refine (conj H0 (conj H1 (conj H2 eq_refl))).
Defined.

(** C9 on the list store: an organization created in the example store. *)
Lemma slug_on_create_witness :
  let create := CreateOrganizationMutation_mutate (store := ListStore.store) Example.db
                  (Example.info None) in
  (exists o, payload_object (fst (create "My Org" "me@my.example" None None)) = Some o
             /\ org_slug o = Some "my-org")
  /\ (exists o, payload_object (fst (create "My Org" "me@my.example" None (Some "mine"))) = Some o
                /\ org_slug o = Some "mine")
  /\ (ascii_only "R&D Labs (Zurich)"
      /\ exists o, payload_object (fst (create "R&D Labs (Zurich)" "me@my.example" None None))
                   = Some o
                   /\ org_slug o = Some "rd-labs-zurich").
Proof.
  intros create.
  destruct (slug_on_create (store := ListStore.store) Example.db (Example.info None)
              "me@my.example" None ListStore_saves_slug) as (_ & _ & Hmy & Hname & Hgiven).
  assert (Hascii : ascii_only "R&D Labs (Zurich)") by (unfold ascii_only; simpl; repeat constructor).
  refine (conj _ (conj _ (conj Hascii _))).
  - apply (Hmy _ (snd (create "My Org" "me@my.example" None None))); reflexivity.
  - apply (Hgiven "My Org" "mine" _ (snd (create "My Org" "me@my.example" None (Some "mine"))));
      [discriminate | reflexivity | reflexivity].
  - apply (Hname "R&D Labs (Zurich)" _
             (snd (create "R&D Labs (Zurich)" "me@my.example" None None)) Hascii);
      reflexivity.
Defined.

(** C7 on the list store: a slug that is taken, and a task that does not
    exist. *)
Lemma mutation_errors_witness :
  CreateOrganizationMutation_mutate (store := ListStore.store) Example.db (Example.info None)
    "Acme Two" "two@acme.example" None (Some "acme")
  = ({| payload_object := None; success := false;
        errors := ["UNIQUE constraint failed: organizations.slug"] |}, Example.db)
  /\ (forall kwargs,
        UpdateTaskMutation_mutate ListStore.int (store := ListStore.store) Example.db
          (Example.info None) "99" kwargs
        = ({| payload_object := None; success := false; errors := ["Task not found"] |},
           Example.db))
  /\ CreateProjectMutation_mutate ListStore.int (store := ListStore.store) Example.db
       (Example.info None) "1" "Website" None None None
     = ({| payload_object := None; success := false;
           errors := ["UNIQUE constraint failed: projects.organization_id, projects.name"] |},
        Example.db).
Proof.
  destruct (mutation_errors ListStore.int (store := ListStore.store) Example.db (Example.info None))
    as (Hcreate & _ & Hproject & _ & _ & _ & _ & Hmiss).
  refine (conj _ (conj _ _)).
  - apply (Hcreate "Acme Two" "two@acme.example" None (Some "acme")
             (ListStore.IntegrityError "UNIQUE constraint failed: organizations.slug")).
    reflexivity.
  - destruct (Hmiss "99" 99 eq_refl) as (_ & _ & Htask).
    apply Htask. simpl. intros t Ht. decompose [or] Ht; subst; try discriminate. contradiction.
  - destruct (Hproject "1" "Website" None None None) as (_ & Hwrite & _).
    apply (Hwrite Example.acme
             (ListStore.IntegrityError
                "UNIQUE constraint failed: projects.organization_id, projects.name"));
      reflexivity.
Defined.

(** C4, as the specification has it, fails on the list store: the check
    rejects the deactivated organization and a missing organization, and the
    mutations create a project in the deactivated organization, and a task in
    a project of it, also when the context has no tenant. *)
Lemma mutations_skip_validation :
  let create_project := CreateProjectMutation_mutate ListStore.int (store := ListStore.store) in
  let create_task := CreateTaskMutation_mutate ListStore.int (store := ListStore.store) in
  let no_kwargs := {| ct_description := None; ct_status := None; ct_priority := None;
                      ct_assignee_email := None; ct_due_date := None |} in
  validate_organization_access (Some Example.gone)
  = Raise (PermissionDenied "Organization is not active")
  /\ validate_organization_access None = Raise (PermissionDenied "Organization not found")
  /\ (let '(payload, db') :=
        create_project Example.db (Example.info (Some Example.gone)) "3" "Archive" None None None in
      success payload = true /\ errors payload = []
      /\ List.map project_name (db_projects db') = ["Website"; "Billing"; "Vault"; "Archive"])
  /\ success (fst (create_project Example.db (Example.info None) "3" "Archive" None None None))
     = true
  /\ success (fst (create_task Example.db (Example.info (Some Example.gone)) "3" "Seal" no_kwargs))
     = true
  /\ success (fst (create_task Example.db (Example.info None) "3" "Seal" no_kwargs)) = true.
Proof. vm_compute. repeat split. Qed.

(** C4, as the code has it, on the example store. *)
Lemma validate_organization_access_exact_witness :
  CreateProjectMutation_mutate ListStore.int (store := ListStore.store) Example.db
    (Example.info (Some Example.gone)) "3" "Archive" None None None
  = match ListStore.create_Project Example.db Example.gone "Archive" "" "ACTIVE" None with
    | Return (project, db') => (succeeded project, db')
    | Raise e => (failed (rendered OrganizationModel "Organization not found" e), Example.db)
    end.
Proof.
  destruct (validate_organization_access_exact ListStore.int (store := ListStore.store))
    as (_ & _ & H & _).
  apply (H Example.db (Example.info (Some Example.gone)) "3" Example.gone). reflexivity.
Defined.

(** * Further properties *)

(** ** The filter of the Scope Enforcer, where it works *)

Lemma filter_no_tenant (path : list string) (rows : list Instance) :
  List.filter (row_matches path None) rows = [].
Proof.
  apply filter_nothing. intros y _. unfold row_matches.
  now destruct (follow y path) as [[]|].
Qed.

(** X1.  On projects the filter keeps exactly the rows that
    [Project.objects.filter(organization=A)] keeps; without tenant it keeps
    none; and on organizations, which have none of the three relations, it
    returns the empty query set. *)
Theorem filter_by_organization_scope (db : DB) :
  (forall A,
     filter_by_organization (Project_objects db) (Some A)
     = Return {| qs_model := ProjectModel;
                 qs_rows := List.map IProject (Project_objects_filter db A) |})
  /\ filter_by_organization (Project_objects db) None
     = Return {| qs_model := ProjectModel; qs_rows := [] |}
  /\ (forall organization,
        filter_by_organization (Organization_objects db) organization
        = Return {| qs_model := OrganizationModel; qs_rows := [] |}).
Proof.
  split; [|split].
  - intros A. apply filter_by_organization_projects.
  - unfold filter_by_organization, QuerySet_filter. simpl. now rewrite filter_no_tenant.
  - reflexivity.
Qed.

(** ** The Request Gate, conversely *)

(** X2.  The gate lets every request with a tenant pass, whatever its path;
    and when it answers, the answer is the 400 response, the path is under
    the API prefix and under no exempt prefix, and the request has no
    tenant. *)
Theorem gate_rejects_only_without_tenant (request : HttpRequest) :
  (forall o, getattr_organization request = Some o ->
             RequireOrganizationMiddleware_process_request request = None)
  /\ (forall response,
        RequireOrganizationMiddleware_process_request request = Some response ->
        response
        = JsonResponse
            [("error", "Organization context required");
             ("message", "Please provide organization via X-Organization-Slug header or organization_slug parameter")]
            400
        /\ startswith (req_path request) "/api/" = true
        /\ existsb (startswith (req_path request)) EXEMPT_PATHS = false
        /\ getattr_organization request = None).
Proof.
  unfold RequireOrganizationMiddleware_process_request. split.
  - intros o Ho. unfold getattr_organization in *.
    destruct (existsb _ EXEMPT_PATHS); [reflexivity|].
    destruct (negb (startswith _ _)); [reflexivity|].
    now destruct (req_organization request) as [[o'|]|].
  - intros response.
    destruct (existsb _ EXEMPT_PATHS) eqn:Hex; [discriminate|].
    destruct (startswith (req_path request) "/api/") eqn:Hapi; [|discriminate].
    unfold getattr_organization.
    destruct (req_organization request) as [[o'|]|]; cbn [negb orb truthy_obj default];
      try discriminate; intros H; inversion H; auto.
Qed.

Section Further.

Variable int : string -> option Z.

Context {store : EntityStore}.

(** ** The Tenant Resolver, further *)

Lemma process_request_shape (db : DB) (request request' : HttpRequest) :
  OrganizationMiddleware_process_request int db request = Return request' ->
  exists tenant, request' = set_organization request tenant.
Proof.
  unfold OrganizationMiddleware_process_request.
  destruct (read_identifiers request) as [s i].
  destruct (lookup_organization int db s i) as [o|e].
  - intros H. inversion H. eauto.
  - destruct (is_DoesNotExist OrganizationModel e); intros H; inversion H. eauto.
Qed.

(** X3.  Whenever the resolver returns, it has set the tenant attribute and
    left path, headers and query parameters alone; a tenant it sets is an
    active organization of the store, with no assumption on the store; and
    resolving once more changes nothing. *)
Theorem process_request_result (db : DB) (request request' : HttpRequest) :
  OrganizationMiddleware_process_request int db request = Return request' ->
  req_path request' = req_path request
  /\ req_META request' = req_META request
  /\ req_GET request' = req_GET request
  /\ (exists tenant, req_organization request' = Some tenant)
  /\ (forall o, getattr_organization request' = Some o ->
                In o (db_organizations db) /\ org_is_active o = true)
  /\ OrganizationMiddleware_process_request int db request' = Return request'.
Proof.
  intros H. pose proof (process_request_shape _ _ _ H) as [tenant ->].
  refine (conj eq_refl (conj eq_refl (conj eq_refl (conj _ (conj _ _))))).
  - now exists tenant.
  - intros o Ho. exact (resolved_tenant_is_active int db _ _ o H Ho).
  - revert H. unfold OrganizationMiddleware_process_request, read_identifiers. simpl.
    destruct (negb _ && negb _);
      (destruct (lookup_organization int db _ _) as [o|e];
       [| destruct (is_DoesNotExist OrganizationModel e)]);
      intros H; inversion H; try reflexivity.
Qed.

(** X4.  After the resolver, a resolver wrapped in
    [require_organization_context] either runs, and then the tenant is an
    active organization of the store, or is not run at all and
    [PermissionDenied] is raised; and [check_organization_permission] on the
    tenant of the context never finds an organization that is not active. *)
Theorem decorated_resolver_after_middleware {A} (db : DB) (request request' : HttpRequest)
    (func : HttpRequest -> Result A) :
  OrganizationMiddleware_process_request int db request = Return request' ->
  (getattr_organization request' = None
   /\ require_organization_context func request'
      = Raise (PermissionDenied "Organization context required")
   /\ check_organization_permission (getattr_organization request')
      = Raise (PermissionDenied "Organization context required"))
  \/ (exists o, getattr_organization request' = Some o
                /\ In o (db_organizations db) /\ org_is_active o = true
                /\ require_organization_context func request' = func request'
                /\ check_organization_permission (getattr_organization request') = Return true).
Proof.
  intros H. unfold require_organization_context.
  destruct (getattr_organization request') as [o|] eqn:Ho.
  - right. exists o. destruct (resolved_tenant_is_active int db _ _ o H Ho) as [Hin Hact].
    simpl. rewrite Hact. auto.
  - left. auto.
Qed.

(** ** The queries on organizations *)

Lemma active_slug_found (db : DB) (O : Organization) (s : string) :
  constraints db -> In O (db_organizations db) -> org_is_active O = true ->
  org_slug O = Some s ->
  objects_get OrganizationModel (db_organizations db) (by_slug s) = Return O.
Proof.
  intros Hdb HO Hact Hs. apply (objects_get_found org_slug); auto.
  - apply Hdb.
  - unfold by_slug. rewrite Hs, Hact. now rewrite String.eqb_refl.
  - intros y _. unfold by_slug. rewrite Hs.
    destruct (org_slug y) as [s'|]; [|discriminate].
    intros [E _]%andb_true_iff. apply String.eqb_eq in E. now subst.
Qed.

Lemma active_id_found (db : DB) (O : Organization) (n : Z) :
  constraints db -> In O (db_organizations db) -> org_is_active O = true ->
  org_id O = Some n ->
  objects_get OrganizationModel (db_organizations db) (by_id n) = Return O.
Proof.
  intros Hdb HO Hact Hn. apply (objects_get_found org_id); auto.
  - apply Hdb.
  - unfold by_id. rewrite Hn, Hact. simpl. now rewrite Z.eqb_refl.
  - intros y _. unfold by_id. rewrite Hn.
    intros [E _]%andb_true_iff. now apply pk_eqb_eq in E.
Qed.

Lemma pk_found (db : DB) (O : Organization) (n : Z) :
  constraints db -> In O (db_organizations db) -> org_id O = Some n ->
  objects_get OrganizationModel (db_organizations db) (org_pk_is n) = Return O.
Proof.
  intros Hdb HO Hn. apply (objects_get_found org_id); auto.
  - apply Hdb.
  - unfold org_pk_is. rewrite Hn. simpl. apply Z.eqb_refl.
  - intros y _. unfold org_pk_is. rewrite Hn. intros E. now apply pk_eqb_eq in E.
Qed.

(** X5.  [resolve_organizations] lists exactly the active organizations of
    the store.  Every tenant that the resolver can attach to a request is in
    the list; and in a store that keeps to its constraints, every listed
    organization with a non-empty slug is the tenant of a request that
    carries its slug in the header. *)
Theorem resolve_organizations_lists_tenants (db : DB) (info : HttpRequest) :
  (forall o, In o (resolve_organizations db info)
             <-> In o (db_organizations db) /\ org_is_active o = true)
  /\ (forall request request' o,
        OrganizationMiddleware_process_request int db request = Return request' ->
        getattr_organization request' = Some o ->
        In o (resolve_organizations db info))
  /\ (constraints db ->
      forall o s request,
        In o (resolve_organizations db info) -> org_slug o = Some s -> s <> "" ->
        req_META request !! "HTTP_X_ORGANIZATION_SLUG" = Some s ->
        OrganizationMiddleware_process_request int db request
        = Return (set_organization request (Some o))).
Proof.
  unfold resolve_organizations. split; [|split].
  - intros o. apply filter_In.
  - intros request request' o H Ho. apply filter_In.
    apply (resolved_tenant_is_active int db request request' o H Ho).
  - intros Hdb o s request [Hin Hact]%filter_In Hs Hne Hhdr.
    unfold OrganizationMiddleware_process_request.
    rewrite (read_identifiers_header_slug request s Hhdr Hne).
    unfold lookup_organization. simpl.
    apply String.eqb_neq in Hne. rewrite Hne. simpl.
    now rewrite (active_slug_found db o s).
Qed.

(** X6.  For a request with a non-empty slug header, the resolver attaches
    to the request what [resolve_organization_by_slug] returns for that slug,
    and raises what it raises. *)
Theorem resolver_agrees_with_query_by_slug (db : DB) (info request : HttpRequest) (s : string) :
  req_META request !! "HTTP_X_ORGANIZATION_SLUG" = Some s -> s <> "" ->
  OrganizationMiddleware_process_request int db request
  = set_organization request <$> resolve_organization_by_slug db info s.
Proof.
  intros Hhdr Hne. unfold OrganizationMiddleware_process_request, resolve_organization_by_slug.
  rewrite (read_identifiers_header_slug request s Hhdr Hne).
  unfold lookup_organization. simpl.
  apply String.eqb_neq in Hne. rewrite Hne. simpl.
  destruct (objects_get _ _ _) as [o|e]; simpl; [reflexivity|].
  now destruct (is_DoesNotExist OrganizationModel e).
Qed.

(** X7.  In a store that keeps to its constraints, [resolve_organization]
    returns the organization of the given id whether it is active or not,
    and [None] when no organization has that id; nothing is raised for an
    id that is a number. *)
Theorem resolve_organization_by_id (db : DB) (info : HttpRequest) (id : string) (n : Z) :
  constraints db ->
  int id = Some n ->
  (forall O, In O (db_organizations db) -> org_id O = Some n ->
             resolve_organization int db info id = Return (Some O))
  /\ ((forall o, In o (db_organizations db) -> org_id o <> Some n) ->
      resolve_organization int db info id = Return None).
Proof.
  intros Hdb Hid. unfold resolve_organization, Organization_objects_get, prep_id.
  rewrite Hid. simpl. split.
  - intros O HO Hn. now rewrite (pk_found db O n).
  - intros Hnone. rewrite objects_get_missing; [reflexivity|].
    intros o Ho. unfold org_pk_is.
    destruct (pk_eqb (org_id o) (Some n)) eqn:E; [|reflexivity].
    apply pk_eqb_eq in E. now apply Hnone in Ho.
Qed.

(** ** The two middlewares together *)

Lemma process_request_active_slug (db : DB) (O : Organization) (s : string)
    (request : HttpRequest) :
  constraints db -> In O (db_organizations db) -> org_is_active O = true ->
  org_slug O = Some s -> s <> "" ->
  req_META request !! "HTTP_X_ORGANIZATION_SLUG" = Some s ->
  OrganizationMiddleware_process_request int db request
  = Return (set_organization request (Some O)).
Proof.
  intros Hdb HO Hact Hs Hne Hhdr. unfold OrganizationMiddleware_process_request.
  rewrite (read_identifiers_header_slug request s Hhdr Hne).
  unfold lookup_organization. simpl.
  apply String.eqb_neq in Hne. rewrite Hne. simpl.
  now rewrite (active_slug_found db O s).
Qed.

Lemma process_request_inactive_slug (db : DB) (O : Organization) (s : string)
    (request : HttpRequest) :
  constraints db -> In O (db_organizations db) -> org_is_active O = false ->
  org_slug O = Some s -> s <> "" ->
  req_META request !! "HTTP_X_ORGANIZATION_SLUG" = Some s ->
  OrganizationMiddleware_process_request int db request
  = Return (set_organization request None).
Proof.
  intros Hdb HO Hact Hs Hne Hhdr.
  apply (process_request_miss int db request _ _ (read_identifiers_header_slug request s Hhdr Hne)).
  unfold lookup_misses. simpl. apply String.eqb_neq in Hne. rewrite Hne. simpl.
  now apply (inactive_slug_misses db O).
Qed.

Lemma gate_after_resolver (request : HttpRequest) (tenant : option Organization) :
  RequireOrganizationMiddleware_process_request (set_organization request tenant)
  = if existsb (startswith (req_path request)) EXEMPT_PATHS then None
    else if negb (startswith (req_path request) "/api/") then None
    else match tenant with
         | Some _ => None
         | None =>
             Some (JsonResponse
                     [("error", "Organization context required");
                      ("message", "Please provide organization via X-Organization-Slug header or organization_slug parameter")]
                     400)
         end.
Proof. now destruct tenant. Qed.

(** X8.  In a store that keeps to its constraints, take a request for a
    path under the API prefix and under no exempt prefix, whose slug header
    is the non-empty slug of a stored organization.  If the organization is
    active, the view is invoked once, on the request with that tenant, and
    the response carries the id and the slug of the tenant in its headers.
    If it is not, the answer is the 400 response of the gate, without these
    headers, and the view is not invoked. *)
Theorem middleware_chain_by_slug (db : DB) (O : Organization) (s : string)
    (request : HttpRequest) (view : HttpRequest -> HttpResponse) (trace : Trace) :
  constraints db ->
  In O (db_organizations db) ->
  org_slug O = Some s -> s <> "" ->
  req_META request !! "HTTP_X_ORGANIZATION_SLUG" = Some s ->
  existsb (startswith (req_path request)) EXEMPT_PATHS = false ->
  startswith (req_path request) "/api/" = true ->
  middleware_chain int db view request trace
  = if org_is_active O then
      Return ({| response_content := view (set_organization request (Some O));
                 response_headers :=
                   <["X-Organization-Slug" := s]>
                     (<["X-Organization-ID" := header_of_id (org_id O)]> ∅) |},
              (trace ++ [set_organization request (Some O)])%list)
    else
      Return ({| response_content :=
                   JsonResponse
                     [("error", "Organization context required");
                      ("message", "Please provide organization via X-Organization-Slug header or organization_slug parameter")]
                     400;
                 response_headers := ∅ |},
              trace).
Proof.
  intros Hdb HO Hs Hne Hhdr Hex Hapi.
  unfold middleware_chain, OrganizationMiddleware_call.
  destruct (org_is_active O) eqn:Hact.
  - rewrite (process_request_active_slug db O s request) by assumption. simpl.
    unfold MiddlewareMixin_call. rewrite gate_after_resolver, Hex, Hapi. simpl.
    unfold OrganizationMiddleware_process_response, set_header. simpl. now rewrite Hs.
  - rewrite (process_request_inactive_slug db O s request) by assumption. simpl.
    unfold MiddlewareMixin_call. rewrite gate_after_resolver, Hex, Hapi. reflexivity.
Qed.

Lemma str_int_nonempty (n : Z) : str_int n <> "".
Proof.
  unfold str_int. destruct n as [|p|p]; simpl; try discriminate.
  pose proof (Unsigned.to_uint_nonnil p) as Hp.
  destruct (Pos.to_uint p); simpl; try discriminate. contradiction.
Qed.

(** X9.  When a tenant was resolved, [process_response] puts its id and
    its slug into the response headers and leaves the content alone.  In a
    store that keeps to its constraints these headers lead back to the same
    tenant: a request that sends the slug header back (when the slug is not
    empty), or that sends the id header back and no slug, is resolved to the
    same organization. *)
Theorem tenant_headers_round_trip (db : DB) (request request' : HttpRequest) (O : Organization)
    (response : Response) :
  constraints db ->
  OrganizationMiddleware_process_request int db request = Return request' ->
  getattr_organization request' = Some O ->
  let response' := OrganizationMiddleware_process_response request' response in
  response_headers response' !! "X-Organization-Slug" = Some (header_of_slug (org_slug O))
  /\ response_headers response' !! "X-Organization-ID" = Some (header_of_id (org_id O))
  /\ response_content response' = response_content response
  /\ (forall again s,
        org_slug O = Some s -> s <> "" ->
        req_META again !! "HTTP_X_ORGANIZATION_SLUG"
        = response_headers response' !! "X-Organization-Slug" ->
        OrganizationMiddleware_process_request int db again
        = Return (set_organization again (Some O)))
  /\ (forall again n,
        org_id O = Some n -> int (str_int n) = Some n ->
        truthy_str (req_META again !! "HTTP_X_ORGANIZATION_SLUG") = false ->
        req_META again !! "HTTP_X_ORGANIZATION_ID"
        = response_headers response' !! "X-Organization-ID" ->
        OrganizationMiddleware_process_request int db again
        = Return (set_organization again (Some O))).
Proof.
  intros Hdb H Ho response'.
  destruct (resolved_tenant_is_active int db _ _ O H Ho) as [Hin Hact].
  assert (Hslug : response_headers response' !! "X-Organization-Slug"
                  = Some (header_of_slug (org_slug O))).
  { subst response'. unfold OrganizationMiddleware_process_response, getattr_organization in *.
    destruct (req_organization request') as [[o|]|]; try discriminate.
    inversion Ho; subst. simpl. apply lookup_insert_eq. }
  assert (Hid : response_headers response' !! "X-Organization-ID"
                = Some (header_of_id (org_id O))).
  { subst response'. unfold OrganizationMiddleware_process_response, getattr_organization in *.
    destruct (req_organization request') as [[o|]|]; try discriminate.
    inversion Ho; subst. simpl. rewrite lookup_insert_ne by discriminate.
    apply lookup_insert_eq. }
  refine (conj Hslug (conj Hid (conj _ (conj _ _)))).
  - subst response'. unfold OrganizationMiddleware_process_response.
    now destruct (req_organization request') as [[o|]|].
  - intros again s Hs Hne Hhdr. rewrite Hslug, Hs in Hhdr. simpl in Hhdr.
    now apply (process_request_active_slug db O s).
  - intros again n Hn Hint Hnoslug Hhdr. rewrite Hid, Hn in Hhdr. simpl in Hhdr.
    unfold OrganizationMiddleware_process_request, read_identifiers.
    rewrite Hnoslug, Hhdr.
    assert (Htruthy : truthy_str (Some (str_int n)) = true).
    { simpl. apply negb_true_iff, String.eqb_neq, str_int_nonempty. }
    rewrite Htruthy. simpl. unfold lookup_organization. rewrite Hnoslug, Htruthy.
    unfold prep_id. simpl. rewrite Hint. simpl.
    now rewrite (active_id_found db O n).
Qed.

(** ** Projects by organization *)

Lemma Organization_eqb_trans (a b c : Organization) :
  Organization_eqb a b = true -> Organization_eqb b c = true -> Organization_eqb a c = true.
Proof.
  unfold Organization_eqb, pk_eqb.
  destruct (org_id a), (org_id b), (org_id c); try discriminate.
  rewrite !Z.eqb_eq. congruence.
Qed.

Lemma requested_organization_Return (db : DB) (context_org : option Organization)
    (organization_id : string) (O : Organization) :
  requested_organization int db context_org organization_id = Return O ->
  Organization_objects_get int db organization_id = Return O
  /\ other_tenant context_org O = false.
Proof.
  unfold requested_organization.
  destruct (Organization_objects_get int db organization_id) as [o|e]; simpl; [|discriminate].
  destruct (other_tenant context_org o) eqn:E; [discriminate|].
  intros H. inversion H; subst. auto.
Qed.

(** X10.  Under a context tenant A, every project that
    [resolve_projects_by_organization] returns is a project of the store that
    belongs to A, whatever [organization_id] is passed. *)
Theorem projects_by_organization_isolation (db : DB) (info : HttpRequest)
    (organization_id : option string) (A : Organization) (projects : list Project) :
  getattr_organization info = Some A ->
  resolve_projects_by_organization int db info organization_id = Return projects ->
  forall p, In p projects ->
            In p (db_projects db) /\ Organization_eqb (project_organization p) A = true.
Proof.
  intros HA. unfold resolve_projects_by_organization. rewrite HA.
  destruct (truthy_str organization_id).
  - destruct (requested_organization int db (Some A) _) as [O|e] eqn:Hreq.
    + apply requested_organization_Return in Hreq. destruct Hreq as [_ Hsame].
      simpl in Hsame. apply negb_false_iff in Hsame.
      intros H p Hp. inversion H; subst.
      apply filter_In in Hp. destruct Hp as [Hin Hp]. split; [exact Hin|].
      now apply (Organization_eqb_trans _ O).
    + destruct (is_DoesNotExist OrganizationModel e); intros H; inversion H; subst.
      intros p [].
  - intros H p Hp. inversion H; subst. now apply filter_In in Hp.
Qed.

(** X11.  The cases of [resolve_projects_by_organization], in a store that
    keeps to its constraints.  Without [organization_id] it lists the
    projects of the context tenant, and all projects when there is no tenant.
    With the id of a stored organization, active or not, it lists the
    projects of that organization when the context has no tenant or that
    same tenant, and raises [PermissionDenied] under another tenant.  With an
    id that no organization has, it returns the empty list, also under a
    tenant. *)
Theorem projects_by_organization_cases (db : DB) (info : HttpRequest) :
  constraints db ->
  (forall organization_id, truthy_str organization_id = false ->
     resolve_projects_by_organization int db info organization_id
     = match getattr_organization info with
       | None => Return (resolve_projects db info)
       | Some A => Return (Project_objects_filter db A)
       end)
  /\ (forall id n O, id <> "" -> int id = Some n ->
        In O (db_organizations db) -> org_id O = Some n ->
        resolve_projects_by_organization int db info (Some id)
        = match getattr_organization info with
          | None => Return (Project_objects_filter db O)
          | Some A =>
              if pk_eqb (org_id A) (Some n) then Return (Project_objects_filter db O)
              else Raise (PermissionDenied "Access denied to this organization")
          end)
  /\ (forall id n, id <> "" -> int id = Some n ->
        (forall o, In o (db_organizations db) -> org_id o <> Some n) ->
        resolve_projects_by_organization int db info (Some id) = Return []).
Proof.
  intros Hdb. unfold resolve_projects_by_organization. split; [|split].
  - intros organization_id ->. now destruct (getattr_organization info).
  - intros id n O Hne Hid HO Hn.
    assert (truthy_str (Some id) = true) as ->.
    { simpl. apply negb_true_iff, String.eqb_neq, Hne. }
    unfold requested_organization, Organization_objects_get, prep_id. simpl.
    rewrite Hid. simpl. rewrite (pk_found db O n) by assumption. simpl.
    rewrite (other_tenant_decision _ O n Hn).
    destruct (getattr_organization info) as [A|]; [|reflexivity].
    now destruct (pk_eqb (org_id A) (Some n)).
  - intros id n Hne Hid Hnone.
    assert (truthy_str (Some id) = true) as ->.
    { simpl. apply negb_true_iff, String.eqb_neq, Hne. }
    unfold requested_organization. simpl.
    now rewrite (Organization_objects_get_missing int db id n Hid Hnone).
Qed.

(** ** Project statistics *)

Lemma filter_length_le {A} (f : A -> bool) (l : list A) :
  (length (List.filter f l) <= length l)%nat.
Proof. induction l as [|a l IH]; simpl; [lia|]. destruct (f a); simpl; lia. Qed.

Lemma filter_disjoint_length {A} (f g : A -> bool) (l : list A) :
  (forall x, f x = true -> g x = false) ->
  (length (List.filter f l) + length (List.filter g l) <= length l)%nat.
Proof.
  intros Hfg. induction l as [|a l IH]; simpl; [lia|].
  destruct (f a) eqn:Hf; simpl.
  - rewrite (Hfg a Hf). lia.
  - destruct (g a); simpl; lia.
Qed.

Lemma filter_implies_length {A} (f g : A -> bool) (l : list A) :
  (forall x, f x = true -> g x = true) ->
  (length (List.filter f l) <= length (List.filter g l))%nat.
Proof.
  intros Hfg. induction l as [|a l IH]; simpl; [lia|].
  destruct (f a) eqn:Hf; simpl.
  - rewrite (Hfg a Hf). simpl. lia.
  - destruct (g a); simpl; lia.
Qed.

Lemma completed_le_count (db : DB) (p : Project) :
  0 <= Project_completed_tasks db p <= Project_task_count db p.
Proof.
  unfold Project_completed_tasks, Project_task_count.
  pose proof (filter_length_le (fun t => String.eqb (task_status t) "DONE") (Project_tasks db p)).
  lia.
Qed.

Lemma sum_le {A} (f g : A -> Z) (l : list A) :
  (forall x, 0 <= f x <= g x) -> 0 <= sum f l <= sum g l.
Proof.
  intros Hfg. induction l as [|a l IH]; simpl; [lia|]. specialize (Hfg a). lia.
Qed.

Lemma counted_overdue_is_overdue (today : Z) (p : Project) :
  counted_overdue today p = true -> Project_is_overdue today p = true.
Proof.
  unfold counted_overdue, Project_is_overdue.
  destruct (project_due_date p) as [d|]; [|discriminate].
  intros [Hd Hs]%andb_true_iff. rewrite Hd. simpl.
  apply orb_true_iff in Hs. destruct Hs as [Hs|Hs]; apply String.eqb_eq in Hs; now rewrite Hs.
Qed.

Lemma project_stats_returns (db : DB) (today : Z) (projects : list Project) :
  exists st,
    project_stats db today projects = Return st
    /\ total_projects st = Z.of_nat (length projects)
    /\ 0 <= active_projects st /\ 0 <= completed_projects st
    /\ active_projects st + completed_projects st <= total_projects st
    /\ 0 <= overdue_projects st
       <= Z.of_nat (length (List.filter (Project_is_overdue today) projects))
    /\ overdue_projects st <= total_projects st
    /\ 0 <= completed_tasks st <= total_tasks st
    /\ (total_tasks st = 0 -> overall_completion_rate st = S754_zero false).
Proof.
  unfold project_stats.
  pose proof (sum_le (Project_completed_tasks db) (Project_task_count db) projects
                (completed_le_count db)) as Hsum.
  pose proof (filter_disjoint_length
                (fun p => String.eqb (project_status p) "ACTIVE")
                (fun p => String.eqb (project_status p) "COMPLETED") projects) as Hdis.
  pose proof (filter_implies_length (counted_overdue today) (Project_is_overdue today) projects
                (counted_overdue_is_overdue today)) as Hover.
  pose proof (filter_length_le (counted_overdue today) projects) as Hle.
  assert (Hrate : exists r,
             (if 0 <? sum (Project_task_count db) projects
              then q ← float.int_truediv (sum (Project_completed_tasks db) projects)
                         (sum (Project_task_count db) projects);
                   mret (SFmul float.prec float.emax q (float.of_int 100))
              else mret (S754_zero false)) = Return r
             /\ (sum (Project_task_count db) projects = 0 -> r = S754_zero false)).
  { destruct (0 <? sum (Project_task_count db) projects) eqn:E.
    - apply Z.ltb_lt in E.
      destruct (int_truediv_returns (sum (Project_completed_tasks db) projects)
                  (sum (Project_task_count db) projects)) as [q Hq]; [lia|].
      rewrite Hq. eexists. split; [reflexivity|]. lia.
    - eexists. split; [reflexivity|]. reflexivity. }
  assert (Hdis' := Hdis ltac:(intros x Hx; cbv beta in *; apply String.eqb_eq in Hx; now rewrite Hx)).
  destruct Hrate as (r & -> & Hzero). eexists. split; [reflexivity|]. simpl.
  repeat split; try lia.
  intros Hnone. now rewrite (Hzero Hnone).
Qed.

(** X12.  [resolve_project_stats] looks at the projects that
    [resolve_projects_by_organization] lists for the same context and
    [organization_id], and raises exactly when that query raises.  In the
    statistics, [total_projects] is the number of these projects, the active
    and the completed ones together are no more than the total, the overdue
    ones are no more than the total, [completed_tasks] is no more than
    [total_tasks], and the rate is [0.0] when there is no task. *)
Theorem project_stats_consistent (db : DB) (today : Z) (info : HttpRequest)
    (organization_id : option string) :
  (forall st,
     resolve_project_stats int db today info organization_id = Return (Some st) ->
     exists projects,
       resolve_projects_by_organization int db info organization_id = Return projects
       /\ total_projects st = Z.of_nat (length projects)
       /\ 0 <= active_projects st /\ 0 <= completed_projects st
       /\ active_projects st + completed_projects st <= total_projects st
       /\ 0 <= overdue_projects st <= total_projects st
       /\ 0 <= completed_tasks st <= total_tasks st
       /\ (total_tasks st = 0 -> overall_completion_rate st = S754_zero false))
  /\ (forall e,
        resolve_project_stats int db today info organization_id = Raise e
        <-> resolve_projects_by_organization int db info organization_id = Raise e).
Proof.
  unfold resolve_project_stats, resolve_projects_by_organization.
  assert (Hst : forall projects st,
            Some <$> project_stats db today projects = Return (Some st) ->
            total_projects st = Z.of_nat (length projects)
            /\ 0 <= active_projects st /\ 0 <= completed_projects st
            /\ active_projects st + completed_projects st <= total_projects st
            /\ 0 <= overdue_projects st <= total_projects st
            /\ 0 <= completed_tasks st <= total_tasks st
            /\ (total_tasks st = 0 -> overall_completion_rate st = S754_zero false)).
  { intros projects st.
    destruct (project_stats_returns db today projects) as (st' & -> & H). simpl.
    intros E. inversion E; subst. intuition lia. }
  assert (Hraise : forall projects e,
            Some <$> project_stats db today projects = Raise e <-> False).
  { intros projects e.
    destruct (project_stats_returns db today projects) as (st' & -> & _). simpl.
    split; [discriminate|tauto]. }
  split.
  - intros st.
    destruct (truthy_str organization_id).
    + destruct (requested_organization int db _ _) as [O|e].
      * intros H. eexists. split; [reflexivity|]. now apply Hst.
      * destruct (is_DoesNotExist OrganizationModel e); discriminate.
    + destruct (getattr_organization info) as [A|];
        intros H; (eexists; split; [reflexivity|]; now apply Hst).
  - intros e.
    destruct (truthy_str organization_id).
    + destruct (requested_organization int db _ _) as [O|e'].
      * rewrite Hraise. split; [tauto|discriminate].
      * destruct (is_DoesNotExist OrganizationModel e'); [split; discriminate|].
        split; intros H; inversion H; reflexivity.
    + destruct (getattr_organization info) as [A|];
        (rewrite Hraise; split; [tauto|discriminate]).
Qed.

(** ** Overdue projects and tasks *)

(** X13.  A project that the statistics count as overdue is overdue by
    [Project.is_overdue], so the count is no more than the number of overdue
    projects.  The two differ exactly on the projects past their due date
    whose status is none of ACTIVE, ON_HOLD and COMPLETED: a project that is
    overdue and not counted is such a project, and every such project,
    whatever its status, is overdue and is not counted. *)
Theorem overdue_count_and_property (db : DB) (today : Z) (projects : list Project) :
  (forall p, counted_overdue today p = true -> Project_is_overdue today p = true)
  /\ (forall p, Project_is_overdue today p = true -> counted_overdue today p = false ->
                (exists due_date, project_due_date p = Some due_date /\ due_date < today)
                /\ project_status p <> "ACTIVE" /\ project_status p <> "ON_HOLD"
                /\ project_status p <> "COMPLETED")
  /\ (forall p due_date, project_due_date p = Some due_date -> due_date < today ->
                         project_status p <> "ACTIVE" -> project_status p <> "ON_HOLD" ->
                         project_status p <> "COMPLETED" ->
                         Project_is_overdue today p = true /\ counted_overdue today p = false)
  /\ (forall st, project_stats db today projects = Return st ->
                 overdue_projects st
                 <= Z.of_nat (length (List.filter (Project_is_overdue today) projects))).
Proof.
  refine (conj (counted_overdue_is_overdue today) (conj _ (conj _ _))).
  - intros p. unfold Project_is_overdue, counted_overdue.
    destruct (project_due_date p) as [d|]; [|discriminate].
    intros [Hd Hs]%andb_true_iff. rewrite Hd. simpl.
    intros [Ha Hh]%orb_false_iff.
    apply String.eqb_neq in Ha, Hh. apply negb_true_iff, String.eqb_neq in Hs.
    apply Z.ltb_lt in Hd. repeat split; auto. now exists d.
  - intros p d Hdue Hlt Ha Hh Hc. unfold Project_is_overdue, counted_overdue.
    rewrite Hdue. apply Z.ltb_lt in Hlt. rewrite Hlt. simpl.
    apply String.eqb_neq in Ha, Hh, Hc. now rewrite Ha, Hh, Hc.
  - intros st Hst.
    destruct (project_stats_returns db today projects) as (st' & Hst' & H).
    rewrite Hst in Hst'. inversion Hst'; subst. intuition lia.
Qed.

(** X14.  Being overdue depends on the clock in one direction only: a
    project or task that is overdue stays overdue at every later time, as long
    as the row is not changed.  A completed project, a task that is done, and
    a row without due date are overdue at no time. *)
Theorem overdue_is_monotone (p : Project) (t : Task) :
  (forall today later, today <= later ->
     Project_is_overdue today p = true -> Project_is_overdue later p = true)
  /\ (forall now later, now <= later ->
        Task_is_overdue now t = true -> Task_is_overdue later t = true)
  /\ (forall today, project_status p = "COMPLETED" \/ project_due_date p = None ->
                    Project_is_overdue today p = false)
  /\ (forall now, task_status t = "DONE" \/ task_due_date t = None ->
                  Task_is_overdue now t = false).
Proof.
  unfold Project_is_overdue, Task_is_overdue. repeat split.
  - intros today later Hle. destruct (project_due_date p) as [d|]; [|discriminate].
    intros [Hd Hs]%andb_true_iff. rewrite Hs, andb_true_r.
    apply Z.ltb_lt in Hd. apply Z.ltb_lt. lia.
  - intros now later Hle. destruct (task_due_date t) as [d|]; [|discriminate].
    intros [Hd Hs]%andb_true_iff. rewrite Hs, andb_true_r.
    apply Z.ltb_lt in Hd. apply Z.ltb_lt. lia.
  - intros today [Hs| ->]; [|reflexivity].
    rewrite Hs. destruct (project_due_date p); [|reflexivity]. simpl. apply andb_false_r.
  - intros now [Hs| ->]; [|reflexivity].
    rewrite Hs. destruct (task_due_date t); [|reflexivity]. simpl. apply andb_false_r.
Qed.

(** ** The counts of an organization *)

(** X15.  In a store that keeps to its constraints, the statistics asked
    for the id of a stored organization, without context tenant, agree with
    the properties of that organization: [total_projects] is its
    [project_count], [active_projects] its [active_project_count], and the
    latter is no more than the former. *)
Theorem organization_counts_agree (db : DB) (today : Z) (info : HttpRequest) (id : string)
    (n : Z) (O : Organization) :
  constraints db ->
  In O (db_organizations db) -> org_id O = Some n ->
  id <> "" -> int id = Some n ->
  getattr_organization info = None ->
  exists st,
    resolve_project_stats int db today info (Some id) = Return (Some st)
    /\ total_projects st = Organization_project_count db O
    /\ active_projects st = Organization_active_project_count db O
    /\ 0 <= Organization_active_project_count db O <= Organization_project_count db O.
Proof.
  intros Hdb HO Hn Hne Hid Hctx. unfold resolve_project_stats. rewrite Hctx.
  assert (truthy_str (Some id) = true) as ->.
  { simpl. apply negb_true_iff, String.eqb_neq, Hne. }
  unfold requested_organization, Organization_objects_get, prep_id. simpl.
  rewrite Hid. simpl. rewrite (pk_found db O n) by assumption. simpl.
  destruct (project_stats_returns db today (Project_objects_filter db O)) as (st & Hst & Htotal & _).
  exists st. rewrite Hst. split; [reflexivity|].
  unfold Organization_project_count, Organization_active_project_count.
  split; [exact Htotal|]. split.
  - revert Hst. unfold project_stats.
    destruct (if 0 <? _ then _ else _) as [r|e]; simpl; [|discriminate].
    intros H. inversion H. reflexivity.
  - pose proof (filter_length_le (fun p => String.eqb (project_status p) "ACTIVE")
                  (Project_objects_filter db O)). lia.
Qed.

(** ** Completion rate, at its ends *)

Lemma nearest_one (t : Z) :
  0 < t -> float.nearest false t t = float.of_int 1.
Proof.
  intros Ht. unfold float.nearest, SFdiv_core_binary.
  replace (Z.sub (Z.add (Zdigits2 t) 0) (Z.add (Zdigits2 t) 0)) with 0 by lia.
  change (Z.min (fexp float.prec float.emax 0) (Z.sub 0 0)) with (-53).
  change (Z.sub (Z.sub 0 0) (-53)) with 53.
  cbv iota.
  replace (Z.div_eucl (Z.shiftl t 53) t) with (2 ^ 53, 0).
  - assert (new_location t 0 = loc_Exact) as ->.
    { unfold new_location, new_location_even, new_location_odd. now destruct (Z.even t). }
    vm_compute. reflexivity.
  - rewrite Z.shiftl_mul_pow2 by lia.
    pose proof (Z.div_eucl_eq (t * 2 ^ 53) t ltac:(lia)) as Heq.
    pose proof (Z.mod_pos_bound (t * 2 ^ 53) t Ht) as Hbound.
    unfold Z.modulo in Hbound.
    destruct (Z.div_eucl (t * 2 ^ 53) t) as [q r].
    assert (r = 0 /\ q = 2 ^ 53) as [-> ->]; [|reflexivity].
    assert (t * (2 ^ 53 - q) = r) by lia.
    assert (2 ^ 53 - q = 0) by nia.
    split; nia.
Qed.

(** X16.  In every store the completed tasks of a project are no more than
    its tasks.  A project with at least one task, all of them done, has the
    completion rate [100.0]; a project with tasks, none of them done, has the
    rate [0.0]. *)
Theorem completion_rate_ends (db : DB) (self : Project) :
  0 <= Project_completed_tasks db self <= Project_task_count db self
  /\ (Project_task_count db self <> 0 ->
      Project_completed_tasks db self = Project_task_count db self ->
      Project_completion_rate db self = Return (Float (float.of_int 100)))
  /\ (Project_task_count db self <> 0 ->
      Project_completed_tasks db self = 0 ->
      Project_completion_rate db self = Return (Float (S754_zero false))).
Proof.
  pose proof (completed_le_count db self) as Hle.
  split; [exact Hle|]. unfold Project_completion_rate. split.
  - intros Hne ->.
    destruct (Project_task_count db self =? 0) eqn:E; [apply Z.eqb_eq in E; contradiction|].
    unfold float.int_truediv. rewrite E.
    assert (0 < Project_task_count db self) as Hpos.
    { unfold Project_task_count in *. lia. }
    assert ((Project_task_count db self <? 0) = false) as -> by (apply Z.ltb_ge; lia).
    simpl. rewrite Z.abs_eq by lia. rewrite (nearest_one _ Hpos).
    vm_compute. reflexivity.
  - intros Hne ->.
    destruct (Project_task_count db self =? 0) eqn:E; [apply Z.eqb_eq in E; contradiction|].
    unfold float.int_truediv. rewrite E. simpl.
    assert ((Project_task_count db self <? 0) = false) as ->.
    { apply Z.ltb_ge. unfold Project_task_count. lia. }
    reflexivity.
Qed.

(** ** The list queries on tasks and comments *)

Lemma task_of_project (db : DB) (P : Project) (t : Task) :
  constraints db -> referential_integrity db ->
  In P (db_projects db) -> In t (Project_tasks db P) ->
  In t (db_tasks db) /\ task_project t = P.
Proof.
  intros Hdb Hint HP Ht. apply filter_In in Ht. destruct Ht as [Ht Hpk].
  split; [exact Ht|]. apply Z.eqb_eq in Hpk.
  apply (NoDup_map_eq project_id (db_projects db)); auto.
  - apply Hdb.
  - pose proof (tasks_project db Hint) as Hfk. rewrite Forall_forall in Hfk.
    apply Hfk. now apply list_elem_of_In.
Qed.

(** X17.  In a store that keeps to its constraints and whose foreign keys
    lead to its rows: under a context tenant A, every task that
    [resolve_tasks_by_project] returns is a task of the store whose ownership
    chain ends in A; and an id that no project has gives the empty list. *)
Theorem tasks_by_project_isolation (db : DB) (info : HttpRequest) (id : string)
    (A : Organization) :
  constraints db -> referential_integrity db ->
  getattr_organization info = Some A ->
  (forall tasks, resolve_tasks_by_project int db info id = Return tasks ->
     forall t, In t tasks ->
               In t (db_tasks db) /\ Organization_eqb (Task_organization t) A = true)
  /\ (forall n, int id = Some n -> (forall p, In p (db_projects db) -> project_id p <> n) ->
                resolve_tasks_by_project int db info id = Return []).
Proof.
  intros Hdb Hint HA. unfold resolve_tasks_by_project. rewrite HA. split.
  - intros tasks.
    destruct (Project_objects_get int db id) as [P|e] eqn:Hget; simpl.
    + assert (HP : In P (db_projects db)).
      { unfold Project_objects_get, prep_id in Hget.
        destruct (int id); simpl in Hget; [|discriminate].
        now apply objects_get_Return in Hget. }
      destruct (negb (Organization_eqb (project_organization P) A)) eqn:E; [discriminate|].
      simpl. intros H t Ht. inversion H; subst.
      destruct (task_of_project db P t Hdb Hint HP Ht) as [Hin HtP].
      split; [exact Hin|]. unfold Task_organization. rewrite HtP.
      now apply negb_false_iff in E.
    + destruct (is_DoesNotExist ProjectModel e); intros H; inversion H; subst. intros t [].
  - intros n Hid Hnone. now rewrite (Project_objects_get_missing int db id n Hid Hnone).
Qed.

(** X18.  In the same kind of store, under a context tenant A, every
    comment that [resolve_task_comments] returns is a comment of the store
    whose ownership chain ends in A; and an id that no task has gives the
    empty list. *)
Theorem task_comments_isolation (db : DB) (info : HttpRequest) (id : string)
    (A : Organization) :
  constraints db -> referential_integrity db ->
  getattr_organization info = Some A ->
  (forall comments, resolve_task_comments int db info id = Return comments ->
     forall c, In c comments ->
               In c (db_task_comments db)
               /\ Organization_eqb (TaskComment_organization c) A = true)
  /\ (forall n, int id = Some n -> (forall t, In t (db_tasks db) -> task_id t <> n) ->
                resolve_task_comments int db info id = Return []).
Proof.
  intros Hdb Hint HA. unfold resolve_task_comments. rewrite HA. split.
  - intros comments.
    destruct (Task_objects_get int db id) as [T|e] eqn:Hget; simpl.
    + assert (HT : In T (db_tasks db)).
      { unfold Task_objects_get, prep_id in Hget.
        destruct (int id); simpl in Hget; [|discriminate].
        now apply objects_get_Return in Hget. }
      destruct (negb (Organization_eqb (project_organization (task_project T)) A)) eqn:E;
        [discriminate|].
      simpl. intros H c Hc. inversion H; subst.
      apply filter_In in Hc. destruct Hc as [Hin Hpk]. split; [exact Hin|].
      apply Z.eqb_eq in Hpk.
      assert (comment_task c = T) as HcT.
      { apply (NoDup_map_eq task_id (db_tasks db)); auto.
        - apply Hdb.
        - pose proof (task_comments_task db Hint) as Hfk. rewrite Forall_forall in Hfk.
          apply Hfk. now apply list_elem_of_In. }
      unfold TaskComment_organization. rewrite HcT. now apply negb_false_iff in E.
    + destruct (is_DoesNotExist TaskModel e); intros H; inversion H; subst. intros c [].
  - intros n Hid Hnone. now rewrite (Task_objects_get_missing int db id n Hid Hnone).
Qed.

(** ** What the update mutations keep *)

(** X19.  A successful [UpdateProjectMutation] returns the project that
    was looked up with the same id and the same organization, and a
    successful [UpdateTaskMutation] the task with the same id and the same
    project, whatever the arguments and whatever the store: an update moves
    nothing to another owner. *)
Theorem update_keeps_owner (db : DB) (info : HttpRequest) (id : string) :
  (forall kwargs payload db',
     UpdateProjectMutation_mutate int db info id kwargs = (payload, db') ->
     success payload = true ->
     exists P P', Project_objects_get int db id = Return P
                  /\ payload_object payload = Some P'
                  /\ project_id P' = project_id P
                  /\ project_organization P' = project_organization P)
  /\ (forall kwargs payload db',
        UpdateTaskMutation_mutate int db info id kwargs = (payload, db') ->
        success payload = true ->
        exists T T', Task_objects_get int db id = Return T
                     /\ payload_object payload = Some T'
                     /\ task_id T' = task_id T
                     /\ task_project T' = task_project T).
Proof.
  split; intros kwargs payload db'.
  - unfold UpdateProjectMutation_mutate, handle.
    destruct (Project_objects_get int db id) as [P|e]; simpl.
    + destruct (Model_save_Project db _) as [db''|e]; simpl;
        intros H Hs; inversion H; subst; [|discriminate].
      exists P. eexists. repeat split.
    + intros H Hs. inversion H; subst. discriminate.
  - unfold UpdateTaskMutation_mutate, handle.
    destruct (Task_objects_get int db id) as [T|e]; simpl.
    + destruct (Model_save_Task db _) as [db''|e]; simpl;
        intros H Hs; inversion H; subst; [|discriminate].
      exists T. eexists. repeat split.
    + intros H Hs. inversion H; subst. discriminate.
Qed.

Lemma Organization_before_save_again (self : Organization) :
  Organization_before_save (Organization_before_save self) = Organization_before_save self.
Proof.
  unfold Organization_before_save.
  destruct (negb (truthy_str (org_slug self))) eqn:E.
  - cbn [org_slug with_slug org_name].
    now destruct (negb (truthy_str (Some (slugify (org_name self))))).
  - now rewrite E.
Qed.

(** X20.  [UpdateOrganizationMutation] hands to the store the organization
    it looked up with the same id and, when its slug is not empty, the same
    slug, also when the name is changed.  What [Organization.save] hands on
    always has a slug, and saving it again would hand on the same. *)
Theorem update_organization_keeps_slug (db : DB) (info : HttpRequest) (id : string)
    (kwargs : UpdateOrganizationKwargs) (O : Organization) :
  Organization_objects_get int db id = Return O ->
  let handed := Organization_before_save (Organization_setattrs kwargs O) in
  UpdateOrganizationMutation_mutate int db info id kwargs
  = handle OrganizationModel "Organization not found" db (Model_save_Organization db handed)
  /\ org_id handed = org_id O
  /\ (truthy_str (org_slug O) = true -> org_slug handed = org_slug O)
  /\ (exists s, org_slug handed = Some s)
  /\ Organization_before_save handed = handed.
Proof.
  intros Hget handed. subst handed.
  refine (conj _ (conj _ (conj _ (conj _ (Organization_before_save_again _))))).
  - unfold UpdateOrganizationMutation_mutate, Organization_save. now rewrite Hget.
  - unfold Organization_before_save. now destruct (negb _).
  - intros Hs. unfold Organization_before_save. cbn [Organization_setattrs org_slug].
    now rewrite Hs.
  - rewrite Organization_before_save_slug. cbn [Organization_setattrs org_slug].
    destruct (org_slug O) as [s|]; [|eauto]. destruct (String.eqb s ""); eauto.
Qed.

(** X21.  The mutations do not look at the tenant.  In a store that keeps
    to its constraints, for a task whose ownership chain ends in the
    organization with primary key [a] and a context tenant B with another
    primary key: [resolve_task] raises [PermissionDenied], while
    [UpdateTaskMutation] and [AddTaskCommentMutation] on the same id hand
    their write to the store, and their outcome is the outcome of the
    store. *)
Theorem mutations_cross_tenant (db : DB) (info : HttpRequest) (id : string) (T : Task)
    (B : Organization) (a : Z) :
  constraints db ->
  In T (db_tasks db) -> int id = Some (task_id T) ->
  org_id (Task_organization T) = Some a ->
  getattr_organization info = Some B -> org_id B <> Some a ->
  resolve_task int db info id = Raise (PermissionDenied "Access denied to this task")
  /\ (forall kwargs,
        UpdateTaskMutation_mutate int db info id kwargs
        = match Model_save_Task db (Task_setattrs kwargs T) with
          | Return db' => (succeeded (Task_setattrs kwargs T), db')
          | Raise e => (failed (rendered TaskModel "Task not found" e), db)
          end)
  /\ (forall content author_email,
        AddTaskCommentMutation_mutate int db info id content author_email
        = match TaskComment_objects_create db T content author_email with
          | Return (comment, db') => (succeeded comment, db')
          | Raise e => (failed (rendered TaskModel "Task not found" e), db)
          end).
Proof.
  intros Hdb HT Hid Ha HB Hne.
  assert (Hget : Task_objects_get int db id = Return T).
  { unfold Task_objects_get, prep_id. rewrite Hid. simpl.
    apply (objects_get_pk task_id); [apply Hdb | exact HT]. }
  split; [|split].
  - destruct (resolve_task_decision int db T id a (tasks_pk db Hdb) HT Hid Ha info) as (H & _).
    now apply (H B).
  - intros kwargs. unfold UpdateTaskMutation_mutate, handle. rewrite Hget. simpl.
    now destruct (Model_save_Task db _).
  - intros content author_email. unfold AddTaskCommentMutation_mutate, handle.
    now rewrite Hget.
Qed.

End Further.

(** ** The slug that [Organization.save] derives *)

Lemma lower_kept (c : ascii) :
  keep_char (lower c) = true ->
  is_hyphen (lower c) || is_space (lower c) = true \/ slug_char (lower c) = true.
Proof.
  destruct c as [[] [] [] [] [] [] [] []]; vm_compute; intros H;
    first [discriminate | now left | now right].
Qed.

Lemma collapse_chars (pending : bool) (l : list ascii) :
  Forall (fun c => is_hyphen c || is_space c = true \/ slug_char c = true) l ->
  Forall (fun c => slug_char c = true) (collapse pending l).
Proof.
  intros H. revert pending. induction H as [|c l Hc _ IH]; intros pending; simpl; [constructor|].
  destruct (is_hyphen c || is_space c) eqn:E.
  - destruct pending; [apply IH | constructor; [reflexivity | apply IH]].
  - constructor; [|apply IH]. destruct Hc as [Hc|Hc]; [discriminate|exact Hc].
Qed.

Lemma lstrip_Forall (P : ascii -> Prop) (l : list ascii) :
  Forall P l -> Forall P (lstrip l).
Proof.
  induction 1 as [|c l Hc Hl IH]; simpl; [constructor|].
  destruct (strip_char c); [exact IH | now constructor].
Qed.

Lemma lstrip_head (l : list ascii) (c : ascii) :
  hd_error (lstrip l) = Some c -> strip_char c = false.
Proof.
  induction l as [|a l IH]; simpl; [discriminate|].
  destruct (strip_char a) eqn:E; [exact IH|]. simpl. intros H. now inversion H; subst.
Qed.

Lemma lstrip_suffix (l : list ascii) : exists pre, l = (pre ++ lstrip l)%list.
Proof.
  induction l as [|a l [pre IH]]; simpl; [now exists []|].
  destruct (strip_char a).
  - exists (a :: pre). simpl. now f_equal.
  - now exists [].
Qed.

Lemma strip_ends (l : list ascii) (c : ascii) :
  (hd_error (strip l) = Some c -> strip_char c = false)
  /\ (hd_error (rev (strip l)) = Some c -> strip_char c = false).
Proof.
  unfold strip. split.
  - destruct (lstrip_suffix (rev (lstrip l))) as [pre Hpre].
    apply (f_equal (@rev ascii)) in Hpre. rewrite rev_involutive, rev_app_distr in Hpre.
    intros H. apply (lstrip_head l). rewrite Hpre.
    destruct (rev (lstrip (rev (lstrip l)))); [discriminate|exact H].
  - rewrite rev_involutive. apply lstrip_head.
Qed.

Lemma slugify_chars (value : string) :
  Forall (fun c => slug_char c = true) (list_ascii_of_string (slugify value)).
Proof.
  unfold slugify. rewrite list_ascii_of_string_of_list_ascii. unfold strip.
  apply Forall_rev, lstrip_Forall, Forall_rev, lstrip_Forall, collapse_chars.
  apply Forall_forall. intros c Hc. apply list_elem_of_In, filter_In in Hc.
  destruct Hc as [Hin Hkeep]. apply in_map_iff in Hin. destruct Hin as (c0 & <- & _).
  now apply lower_kept.
Qed.

(** X22.  When [Organization.save] derives the slug, for a missing or empty
    one, of a name within ASCII, the slug consists of lower-case letters,
    digits, underscores and hyphens only, and neither begins nor ends with a
    hyphen or an underscore, whatever the characters of the name. *)
Theorem derived_slug_is_clean (self : Organization) :
  ascii_only (org_name self) ->
  truthy_str (org_slug self) = false ->
  exists s,
    org_slug (Organization_before_save self) = Some s
    /\ s = slugify (org_name self)
    /\ Forall (fun c => slug_char c = true) (list_ascii_of_string s)
    /\ (forall c, hd_error (list_ascii_of_string s) = Some c -> strip_char c = false)
    /\ (forall c, hd_error (rev (list_ascii_of_string s)) = Some c -> strip_char c = false).
Proof.
  intros _ Hs. exists (slugify (org_name self)).
  unfold Organization_before_save. rewrite Hs. simpl.
  refine (conj eq_refl (conj eq_refl (conj (slugify_chars _) (conj _ _))));
    intros c; unfold slugify; rewrite list_ascii_of_string_of_list_ascii; apply strip_ends.
Qed.

(** * The further statements, evaluated *)

Lemma Example_integrity : referential_integrity Example.db.
Proof.
  split; rewrite Forall_forall; intros x Hx; apply list_elem_of_In in Hx; simpl in *;
    intuition (subst; simpl; tauto).
Qed.

Lemma Example2_constraints : constraints Example2.db.
Proof. split; simpl; compute_done. Qed.

Lemma gate_rejects_only_without_tenant_witness :
  let bare := Example.request "/api/projects/" [] [] in
  RequireOrganizationMiddleware_process_request (set_organization bare (Some Example.acme)) = None
  /\ getattr_organization bare = None.
Proof.
  intros bare. split.
  - apply (proj1 (gate_rejects_only_without_tenant _)) with (o := Example.acme). reflexivity.
  - destruct (proj2 (gate_rejects_only_without_tenant bare) _ eq_refl) as (_ & _ & _ & H).
    exact H.
Defined.

Lemma process_request_result_witness :
  let request :=
    Example.request "/api/projects/" [("HTTP_X_ORGANIZATION_SLUG", "acme")] [] in
  let resolved := set_organization request (Some Example.acme) in
  OrganizationMiddleware_process_request ListStore.int Example.db resolved = Return resolved
  /\ In Example.acme (db_organizations Example.db).
Proof.
  intros request resolved.
  destruct (process_request_result ListStore.int Example.db request resolved eq_refl)
    as (_ & _ & _ & _ & Hactive & Hagain).
  split; [exact Hagain|]. now apply (Hactive Example.acme).
Defined.

Lemma decorated_resolver_after_middleware_witness :
  let request :=
    Example.request "/api/projects/" [("HTTP_X_ORGANIZATION_SLUG", "gone")] [] in
  let func := fun info => Return (resolve_projects Example.db info) in
  require_organization_context func (set_organization request None)
  = Raise (PermissionDenied "Organization context required").
Proof.
  intros request func.
  destruct (decorated_resolver_after_middleware ListStore.int Example.db request
              (set_organization request None) func eq_refl) as [(_ & H & _)|(o & Ho & _)].
  - exact H.
  - discriminate.
Defined.

Lemma resolve_organizations_lists_tenants_witness :
  let request :=
    Example.request "/api/projects/" [("HTTP_X_ORGANIZATION_SLUG", "beta")] [] in
  In Example.beta (resolve_organizations Example.db (Example.info None))
  /\ OrganizationMiddleware_process_request ListStore.int Example.db request
     = Return (set_organization request (Some Example.beta)).
Proof.
  intros request.
  destruct (resolve_organizations_lists_tenants ListStore.int Example.db (Example.info None))
    as (Hlist & _ & Hresolve).
  assert (Hin : In Example.beta (resolve_organizations Example.db (Example.info None))).
  { apply Hlist. simpl. tauto. }
  split; [exact Hin|].
  apply (Hresolve Example_constraints Example.beta "beta");
    [exact Hin | reflexivity | discriminate | reflexivity].
Defined.

Lemma resolver_agrees_with_query_by_slug_witness :
  let request :=
    Example.request "/api/projects/" [("HTTP_X_ORGANIZATION_SLUG", "acme")] [] in
  OrganizationMiddleware_process_request ListStore.int Example.db request
  = set_organization request <$> resolve_organization_by_slug Example.db (Example.info None) "acme".
Proof.
  intros request.
  apply (resolver_agrees_with_query_by_slug ListStore.int Example.db (Example.info None)
           request "acme"); [reflexivity | discriminate].
Defined.

Lemma resolve_organization_by_id_witness :
  resolve_organization ListStore.int Example.db (Example.info None) "3"
  = Return (Some Example.gone).
Proof.
  destruct (resolve_organization_by_id ListStore.int Example.db (Example.info None) "3" 3
              Example_constraints eq_refl) as (H & _).
  apply H; [simpl; tauto | reflexivity].
Defined.

Lemma middleware_chain_by_slug_witness :
  let view := fun _ : HttpRequest => JsonResponse [("data", "...")] 200 in
  let request :=
    Example.request "/api/projects/" [("HTTP_X_ORGANIZATION_SLUG", "acme")] [] in
  let refused :=
    Example.request "/api/projects/" [("HTTP_X_ORGANIZATION_SLUG", "gone")] [] in
  middleware_chain ListStore.int Example.db view request []
  = Return ({| response_content := view (set_organization request (Some Example.acme));
               response_headers :=
                 <["X-Organization-Slug" := "acme"]> (<["X-Organization-ID" := "1"]> ∅) |},
            [set_organization request (Some Example.acme)])
  /\ (response_content ∘ fst <$> middleware_chain ListStore.int Example.db view refused [])
     = Return (JsonResponse
                 [("error", "Organization context required");
                  ("message", "Please provide organization via X-Organization-Slug header or organization_slug parameter")]
                 400).
Proof.
  intros view request refused. split.
  - apply (middleware_chain_by_slug ListStore.int Example.db Example.acme "acme" request view []
             Example_constraints); try reflexivity; [simpl; tauto | discriminate].
  - rewrite (middleware_chain_by_slug ListStore.int Example.db Example.gone "gone" refused view []
               Example_constraints); try reflexivity; [simpl; tauto | discriminate].
Defined.

Lemma tenant_headers_round_trip_witness :
  let request :=
    Example.request "/api/projects/" [("HTTP_X_ORGANIZATION_SLUG", "acme")] [] in
  let again := Example.request "/api/tasks/" [("HTTP_X_ORGANIZATION_ID", "1")] [] in
  OrganizationMiddleware_process_request ListStore.int Example.db again
  = Return (set_organization again (Some Example.acme)).
Proof.
  intros request again.
  destruct (tenant_headers_round_trip ListStore.int Example.db request
              (set_organization request (Some Example.acme)) Example.acme
              {| response_content := JsonResponse [] 200; response_headers := ∅ |}
              Example_constraints eq_refl eq_refl) as (_ & _ & _ & _ & H).
  apply (H again 1); reflexivity.
Defined.

Lemma projects_by_organization_isolation_witness :
  In Example.website (db_projects Example.db)
  /\ Organization_eqb (project_organization Example.website) Example.acme = true.
Proof.
  apply (projects_by_organization_isolation ListStore.int Example.db
           (Example.info (Some Example.acme)) (Some "1") Example.acme [Example.website]);
    [reflexivity | reflexivity | now left].
Defined.

Lemma projects_by_organization_cases_witness :
  resolve_projects_by_organization ListStore.int Example.db (Example.info None) None
  = Return [Example.website; Example.billing; Example.vault]
  /\ resolve_projects_by_organization ListStore.int Example.db
       (Example.info (Some Example.acme)) (Some "2")
     = Raise (PermissionDenied "Access denied to this organization")
  /\ resolve_projects_by_organization ListStore.int Example.db
       (Example.info None) (Some "3")
     = Return [Example.vault]
  /\ resolve_projects_by_organization ListStore.int Example.db
       (Example.info (Some Example.acme)) (Some "99")
     = Return [].
Proof.
  refine (conj _ (conj _ (conj _ _))).
  - destruct (projects_by_organization_cases ListStore.int Example.db (Example.info None)
                Example_constraints) as (H & _ & _).
    apply (H None). reflexivity.
  - destruct (projects_by_organization_cases ListStore.int Example.db
                (Example.info (Some Example.acme)) Example_constraints) as (_ & H & _).
    apply (H "2" 2 Example.beta); [discriminate | reflexivity | simpl; tauto | reflexivity].
  - destruct (projects_by_organization_cases ListStore.int Example.db (Example.info None)
                Example_constraints) as (_ & H & _).
    apply (H "3" 3 Example.gone); [discriminate | reflexivity | simpl; tauto | reflexivity].
  - destruct (projects_by_organization_cases ListStore.int Example.db
                (Example.info (Some Example.acme)) Example_constraints) as (_ & _ & H).
    apply (H "99" 99); [discriminate | reflexivity |].
    simpl. intros o Ho. decompose [or] Ho; subst; try discriminate. contradiction.
Defined.

Lemma project_stats_consistent_witness :
  exists st,
    resolve_project_stats ListStore.int Example.db 0 (Example.info (Some Example.acme)) None
    = Return (Some st)
    /\ total_projects st = 1 /\ total_tasks st = 4 /\ completed_tasks st = 1
    /\ active_projects st + completed_projects st <= total_projects st.
Proof.
  destruct (resolve_project_stats ListStore.int Example.db 0 (Example.info (Some Example.acme))
              None) as [[st|]|e] eqn:E; try discriminate.
  exists st.
  destruct (project_stats_consistent ListStore.int Example.db 0
              (Example.info (Some Example.acme)) None) as (H & _).
  destruct (H st E) as (projects & _ & _ & _ & _ & Hsum & _).
  vm_compute in E. inversion E; subst. repeat split. exact Hsum.
Defined.

Lemma overdue_count_and_property_witness :
  Project_is_overdue 20 Example2.shelved = true
  /\ counted_overdue 20 Example2.shelved = false.
Proof.
  destruct (overdue_count_and_property Example2.db 20 (db_projects Example2.db))
    as (_ & _ & H & _).
  apply (H Example2.shelved 10); [reflexivity | lia | discriminate | discriminate | discriminate].
Defined.

Lemma overdue_is_monotone_witness :
  Project_is_overdue 365 Example2.shelved = true
  /\ Task_is_overdue 2000 Example2.report = true
  /\ Task_is_overdue 2000 Example.design = false.
Proof.
  destruct (overdue_is_monotone Example2.shelved Example2.report) as (Hp & Ht & _ & _).
  destruct (overdue_is_monotone Example2.shelved Example.design) as (_ & _ & _ & Hd).
  refine (conj _ (conj _ _)).
  - apply (Hp 11 365); [lia | reflexivity].
  - apply (Ht 1001 2000); [lia | reflexivity].
  - apply Hd. now left.
Defined.

Lemma organization_counts_agree_witness :
  exists st,
    resolve_project_stats ListStore.int Example.db 0 (Example.info None) (Some "1")
    = Return (Some st)
    /\ total_projects st = Organization_project_count Example.db Example.acme
    /\ active_projects st = Organization_active_project_count Example.db Example.acme
    /\ 0 <= Organization_active_project_count Example.db Example.acme
       <= Organization_project_count Example.db Example.acme.
Proof.
  apply (organization_counts_agree ListStore.int Example.db 0 (Example.info None) "1" 1
           Example.acme Example_constraints);
    [simpl; tauto | reflexivity | discriminate | reflexivity | reflexivity].
Defined.

Lemma completion_rate_ends_witness :
  Project_completion_rate Example2.db Example.website = Return (Float (float.of_int 100))
  /\ Project_completion_rate Example.db Example.billing = Return (Float (S754_zero false)).
Proof.
  split.
  - destruct (completion_rate_ends Example2.db Example.website) as (_ & H & _).
    apply H; [discriminate | reflexivity].
  - destruct (completion_rate_ends Example.db Example.billing) as (_ & _ & H).
    apply H; [discriminate | reflexivity].
Defined.

Lemma tasks_by_project_isolation_witness :
  In Example.design (db_tasks Example.db)
  /\ Organization_eqb (Task_organization Example.design) Example.acme = true.
Proof.
  destruct (tasks_by_project_isolation ListStore.int Example.db
              (Example.info (Some Example.acme)) "1" Example.acme
              Example_constraints Example_integrity eq_refl) as (H & _).
  apply (H [Example.design; Example.build; Example.test; Example.launch] eq_refl).
  now left.
Defined.

Lemma task_comments_isolation_witness :
  In Example.remark (db_task_comments Example.db)
  /\ Organization_eqb (TaskComment_organization Example.remark) Example.acme = true.
Proof.
  destruct (task_comments_isolation ListStore.int Example.db
              (Example.info (Some Example.acme)) "1" Example.acme
              Example_constraints Example_integrity eq_refl) as (H & _).
  apply (H [Example.remark] eq_refl). now left.
Defined.

Lemma update_keeps_owner_witness :
  exists T T',
    Task_objects_get ListStore.int Example.db "2" = Return T
    /\ payload_object
         (fst (UpdateTaskMutation_mutate ListStore.int (store := ListStore.store) Example.db
                 (Example.info None) "2" Example2.mark_done)) = Some T'
    /\ task_id T' = task_id T /\ task_project T' = task_project T.
Proof.
  destruct (update_keeps_owner ListStore.int (store := ListStore.store) Example.db
              (Example.info None) "2") as (_ & H).
  apply (H Example2.mark_done _
           (snd (UpdateTaskMutation_mutate ListStore.int (store := ListStore.store) Example.db
                   (Example.info None) "2" Example2.mark_done))); reflexivity.
Defined.

Lemma update_organization_keeps_slug_witness :
  let handed :=
    Organization_before_save (Organization_setattrs (Example2.rename "Acme Corp") Example.acme) in
  org_name handed = "Acme Corp" /\ org_id handed = Some 1 /\ org_slug handed = Some "acme".
Proof.
  destruct (update_organization_keeps_slug ListStore.int (store := ListStore.store) Example.db
              (Example.info None) "1" (Example2.rename "Acme Corp") Example.acme eq_refl)
    as (_ & Hid & Hslug & _).
  refine (conj eq_refl (conj _ _)).
  - exact Hid.
  - now apply Hslug.
Defined.

Lemma mutations_cross_tenant_witness :
  resolve_task ListStore.int Example.db (Example.info (Some Example.beta)) "2"
  = Raise (PermissionDenied "Access denied to this task")
  /\ success (fst (UpdateTaskMutation_mutate ListStore.int (store := ListStore.store) Example.db
                     (Example.info (Some Example.beta)) "2" Example2.mark_done)) = true.
Proof.
  destruct (mutations_cross_tenant ListStore.int (store := ListStore.store) Example.db
              (Example.info (Some Example.beta)) "2" Example.build Example.beta 1
              Example_constraints ltac:(simpl; tauto) eq_refl eq_refl eq_refl
              ltac:(discriminate)) as (Hquery & Hupdate & _).
  split; [exact Hquery|]. now rewrite Hupdate.
Defined.

Lemma derived_slug_is_clean_witness :
  exists s,
    org_slug (Organization_before_save
                {| org_id := None; org_name := "  R&D -- Zurich_ "; org_slug := None;
                   org_contact_email := "rd@acme.example"; org_description := "";
                   org_is_active := true |}) = Some s
    /\ s = "rd-zurich"
    /\ Forall (fun c => slug_char c = true) (list_ascii_of_string s).
Proof.
  assert (Hascii : ascii_only "  R&D -- Zurich_ ") by (unfold ascii_only; simpl; repeat constructor).
  destruct (derived_slug_is_clean
              {| org_id := None; org_name := "  R&D -- Zurich_ "; org_slug := None;
                 org_contact_email := "rd@acme.example"; org_description := "";
                 org_is_active := true |} Hascii eq_refl) as (s & Hs & Hslug & Hchars & _).
  exists s. exact (conj Hs (conj Hslug Hchars)).
Defined.

(** ** Counts and lists *)

(** X23.  In a store that keeps to its constraints, when the context has no
    tenant or the tenant that owns the row: [Project.task_count] is the
    number of tasks that [resolve_tasks_by_project] lists for the project,
    among them [Project.completed_tasks] with status DONE, and
    [Task.comment_count] is the number of comments that
    [resolve_task_comments] lists for the task. *)
Theorem counts_match_lists (int : string -> option Z) (db : DB) (info : HttpRequest) :
  constraints db ->
  (forall P id, In P (db_projects db) -> int id = Some (project_id P) ->
     other_tenant (getattr_organization info) (project_organization P) = false ->
     exists tasks,
       resolve_tasks_by_project int db info id = Return tasks
       /\ Project_task_count db P = Z.of_nat (length tasks)
       /\ Project_completed_tasks db P
          = Z.of_nat (length (List.filter (fun t => String.eqb (task_status t) "DONE") tasks)))
  /\ (forall T id, In T (db_tasks db) -> int id = Some (task_id T) ->
        other_tenant (getattr_organization info) (Task_organization T) = false ->
        exists comments,
          resolve_task_comments int db info id = Return comments
          /\ Task_comment_count db T = Z.of_nat (length comments)).
Proof.
  intros Hdb. split.
  - intros P id HP Hid Hsame. exists (Project_tasks db P).
    unfold resolve_tasks_by_project, Project_objects_get, prep_id. rewrite Hid. simpl.
    rewrite (objects_get_pk project_id) by (try apply Hdb; assumption). simpl.
    rewrite Hsame. repeat split.
  - intros T id HT Hid Hsame. eexists.
    unfold resolve_task_comments, Task_objects_get, prep_id. rewrite Hid. simpl.
    rewrite (objects_get_pk task_id) by (try apply Hdb; assumption). simpl.
    unfold Task_organization in Hsame. rewrite Hsame. split; reflexivity.
Qed.

Lemma counts_match_lists_witness :
  exists tasks,
    resolve_tasks_by_project ListStore.int Example.db (Example.info (Some Example.acme)) "1"
    = Return tasks
    /\ Project_task_count Example.db Example.website = Z.of_nat (length tasks)
    /\ Project_completed_tasks Example.db Example.website
       = Z.of_nat (length (List.filter (fun t => String.eqb (task_status t) "DONE") tasks)).
Proof.
  destruct (counts_match_lists ListStore.int Example.db (Example.info (Some Example.acme))
              Example_constraints) as (H & _).
  apply (H Example.website "1"); [simpl; tauto | reflexivity | reflexivity].
Defined.
